(** * The YouTube search command of sir-lancebot

    A shallow embedding of [bot/exts/evergreen/youtube.py]: the statistics
    fetcher [get_statistics], the search fetcher [search_youtube], the
    formatter [format_search_result] and the command handler [youtube].

    The coroutines run one after the other on a single event loop, so each
    is a function of a world that records what the command did (the
    requests it issued, the log records, the messages it sent).  The HTTP
    provider is an oracle: the answer to a request may depend on the
    request and on how many requests were issued before it. *)

From Stdlib Require Import String Ascii List ZArith Lia Bool.
From Stdlib Require Import DecimalString DecimalZ.
Import ListNotations.

#[local] Set Warnings "-register-all".


Local Open Scope string_scope.
Local Open Scope list_scope.

(** ** Texts *)

Module Text.

(** The line feed of the templates ("\n"). *)
Definition nl : string := String "010"%char EmptyString.

Lemma append_assoc (a b c : string) : ((a ++ b) ++ c = a ++ (b ++ c))%string.
Proof. induction a as [|x a IH]; simpl; [reflexivity | now rewrite IH]. Qed.

Lemma length_append (a b : string) :
  String.length (a ++ b) = String.length a + String.length b.
Proof. induction a as [|x a IH]; simpl; [reflexivity | now rewrite IH]. Qed.

Lemma append_inv_head (a b c : string) : (a ++ b = a ++ c)%string -> b = c.
Proof.
  induction a as [|x a IH]; simpl; intros H; [exact H|].
  injection H as H. now apply IH.
Qed.

(** Two texts that agree after appending the same tail are equal. *)
Lemma append_inv_tail (a b t : string) : (a ++ t = b ++ t)%string -> a = b.
Proof.
  revert b. induction a as [|x a IH]; intros [|y b] H; simpl in H.
  - reflexivity.
  - apply (f_equal String.length) in H. simpl in H.
    rewrite length_append in H. lia.
  - apply (f_equal String.length) in H. simpl in H.
    rewrite length_append in H. lia.
  - injection H as -> H. f_equal. now apply IH.
Qed.

(** Python's [str] of an [int]: decimal digits, a leading minus sign for a
    negative number. *)
Definition of_Z (z : Z) : string := NilZero.string_of_int (Z.to_int z).

Lemma to_int_nonnil (z : Z) : Z.to_int z <> Decimal.Pos Decimal.Nil /\ Z.to_int z <> Decimal.Neg Decimal.Nil.
Proof.
  destruct z as [|p|p]; simpl; split; try discriminate;
    intros [= H]; exact (DecimalPos.Unsigned.to_uint_nonnil p H).
Qed.

Lemma of_Z_inj (a b : Z) : of_Z a = of_Z b -> a = b.
Proof.
  unfold of_Z. intros H.
  apply (f_equal NilZero.int_of_string) in H.
  destruct (to_int_nonnil a) as [Ha1 Ha2], (to_int_nonnil b) as [Hb1 Hb2].
  rewrite !NilZero.isi in H by assumption. injection H as H.
  now apply DecimalZ.to_int_inj.
Qed.

End Text.

(** ** Python values and faults *)

Module Py.

(** What [response.json()] hands back.  A float is carried as the text
    Python prints for it; an object keeps its members in order (a Python
    dict iterates in insertion order), with distinct keys. *)
Inductive value : Type :=
| VNone
| VBool (b : bool)
| VInt (z : Z)
| VFloat (repr : string)
| VStr (s : string)
| VList (l : list value)
| VDict (m : list (string * value)).

(** The exceptions the command can meet. *)
Inductive exn : Type :=
| KeyError (key : value)
| IndexError
| TypeError
| ClientError (what : string)     (* the HTTP client failed *)
| DecodeError (what : string).    (* the body is not JSON *)

(** How a call ends: it returns a value or raises. *)
Inductive outcome (A : Type) : Type :=
| Ok (a : A)
| Raise (e : exn).
Arguments Ok {A} a.
Arguments Raise {A} e.

Fixpoint assoc (k : string) (m : list (string * value)) : option value :=
  match m with
  | [] => None
  | (k', v) :: m' => if String.eqb k k' then Some v else assoc k m'
  end.

(** [v[k]] for a text key [k]. *)
Definition getitem (v : value) (k : string) : outcome value :=
  match v with
  | VDict m =>
      match assoc k m with
      | Some x => Ok x
      | None => Raise (KeyError (VStr k))
      end
  | _ => Raise TypeError
  end.

(** [v[0]].  A decoded object has text keys only, so [0] is never one of
    them; a text gives its first character. *)
Definition getitem0 (v : value) : outcome value :=
  match v with
  | VList (x :: _) => Ok x
  | VList [] => Raise IndexError
  | VStr (String c _) => Ok (VStr (String c EmptyString))
  | VStr EmptyString => Raise IndexError
  | VDict _ => Raise (KeyError (VInt 0))
  | _ => Raise TypeError
  end.

(** The elements a [for] loop over [v] visits. *)
Definition iter (v : value) : outcome (list value) :=
  match v with
  | VList l => Ok l
  | VDict m => Ok (map (fun kv => VStr (fst kv)) m)
  | VStr s => Ok (map (fun c => VStr (String c EmptyString)) (list_ascii_of_string s))
  | _ => Raise TypeError
  end.

Definition is_int (v : value) : bool :=
  match v with
  | VInt _ => true
  | _ => false
  end.

(** [enumerate(l, start)]. *)
Fixpoint enumerate {A : Type} (start : Z) (l : list A) : list (Z * A) :=
  match l with
  | [] => []
  | x :: l' => (start, x) :: enumerate (start + 1) l'
  end.

Lemma enumerate_length {A : Type} (l : list A) (start : Z) :
  length (enumerate start l) = length l.
Proof. revert start; induction l as [|x l IH]; intros start; simpl; [reflexivity | now rewrite IH]. Qed.

Lemma enumerate_nth_error {A : Type} (l : list A) (start : Z) (k : nat) (x : A) :
  nth_error l k = Some x ->
  nth_error (enumerate start l) k = Some ((start + Z.of_nat k)%Z, x).
Proof.
  revert start k. induction l as [|y l IH]; intros start [|k] H; simpl in *; try discriminate.
  - injection H as ->. now rewrite Z.add_0_r.
  - rewrite (IH (start + 1)%Z k H). do 2 f_equal. lia.
Qed.

End Py.
Export Py.

(** ** The world of one command invocation *)

(** The records the two dataclasses of the module declare.  A dataclass
    does not check its annotations: a count holds whatever value it is
    given. *)
Record VideoStatistics : Type := {
  view_count : value;
  like_count : value
}.

Record Video : Type := {
  title : string;
  username : string;
  id : value;
  video_statistics : VideoStatistics
}.

(** [discord.Embed], with the four attributes the command sets. *)
Record Embed : Type := {
  embed_colour : Z;
  embed_title : string;
  embed_url : option string;
  embed_description : string
}.

Inductive level : Type := ERROR | WARNING.

(** What the command does to the outside, in the order it does it. *)
Inductive event : Type :=
| EvGet (endpoint : string) (params : list (string * value))
| EvLog (lvl : level) (msg : string)
| EvSend (embed : Embed).

(** An HTTP response: its status, and what [response.json()] gives. *)
Record response : Type := {
  status : Z;
  json : outcome value
}.

Record world : Type := {
  clock : nat;          (* requests issued so far *)
  trace : list event
}.

(** A coroutine: from the world it starts in to how it ends and the world
    it leaves.  A raised exception keeps the effects made before it. *)
Definition M (A : Type) : Type := world -> outcome A * world.

Definition ret {A : Type} (a : A) : M A := fun w => (Ok a, w).

Definition lift {A : Type} (r : outcome A) : M A := fun w => (r, w).

Definition bind {A B : Type} (c : M A) (k : A -> M B) : M B :=
  fun w =>
    match c w with
    | (Ok a, w') => k a w'
    | (Raise e, w') => (Raise e, w')
    end.

Definition emit (e : event) : M unit :=
  fun w => (Ok tt, {| clock := clock w; trace := trace w ++ [e] |}).

Notation "x <- c ;; k" := (bind c (fun x => k))
  (at level 61, c at next level, right associativity).
Notation "c ;;; k" := (bind c (fun _ => k))
  (at level 61, right associativity).

(** One step of a coroutine that opens with a plain Python expression. *)
Tactic Notation "mstep" := unfold bind at 1; unfold lift at 1.
Tactic Notation "mstep" "in" hyp(H) := unfold bind at 1 in H; unfold lift at 1 in H.

(** [log.error], [log.warning] and [ctx.send]; sending is taken to succeed. *)
Definition log_error (msg : string) : M unit := emit (EvLog ERROR msg).
Definition log_warning (msg : string) : M unit := emit (EvLog WARNING msg).
Definition ctx_send (embed : Embed) : M unit := emit (EvSend embed).

(** The replies a world holds, the requests to one endpoint, the log. *)
Definition replies (t : list event) : list Embed :=
  flat_map (fun e => match e with EvSend m => [m] | _ => [] end) t.

Definition requests_to (endpoint : string) (t : list event) : list (list (string * value)) :=
  flat_map (fun e => match e with
                     | EvGet u p => if String.eqb u endpoint then [p] else []
                     | _ => []
                     end) t.

(** ** The module's constants *)

Definition SEARCH_API : string := "https://www.googleapis.com/youtube/v3/search".
Definition STATS_API : string := "https://www.googleapis.com/youtube/v3/videos".

(** The three templates, each a function of its replacement fields. *)
Definition YOUTUBE_VIDEO_URL (id : string) : string :=
  ("https://www.youtube.com/watch?v=" ++ id)%string.

Definition YOUTUBE_SEARCH_URL (search : string) : string :=
  ("https://www.youtube.com/results?search_query=" ++ search)%string.

Definition RESULT (index title url post_detail_emoji user_emoji username
                   view_emoji view_count like_emoji like_count : string) : string :=
  ("**" ++ index ++ ". [" ++ title ++ "](" ++ url ++ ")**" ++ Text.nl
   ++ post_detail_emoji ++ " " ++ user_emoji ++ " " ++ username ++ " "
   ++ view_emoji ++ " " ++ view_count ++ " " ++ like_emoji ++ " " ++ like_count
   ++ Text.nl)%string.

(** ** The cog *)

Section YouTubeSearch.

(** [bot.constants]: the API key, the emojis and the colours. *)
Variable KEY : value.
Variables Emojis_post_detail Emojis_user Emojis_view Emojis_like Emojis_youtube : string.
Variables Colours_dark_green Colours_soft_red : Z.

(** Library functions: [html.unescape], [discord.utils.escape_markdown],
    [urllib.parse.quote_plus], and what [str] prints for a list or a dict. *)
Variable unescape : string -> string.
Variable escape_markdown : string -> string.
Variable quote_plus : string -> string.
Variable container_str : value -> string.

(** The provider behind [bot.http_session]: what the request number
    [clock] gets, a response or a fault of the client. *)
Variable http : nat -> string -> list (string * value) -> outcome response.

(** [str(v)], as [str.format] renders a replacement field. *)
Definition str (v : value) : string :=
  match v with
  | VNone => "None"
  | VBool true => "True"
  | VBool false => "False"
  | VInt z => Text.of_Z z
  | VFloat r => r
  | VStr s => s
  | VList _ | VDict _ => container_str v
  end.

(** [escape_markdown(unescape(v))]: both want a text; given anything else
    one of the two raises [TypeError]. *)
Definition clean (v : value) : M string :=
  match v with
  | VStr s => ret (escape_markdown (unescape s))
  | _ => lift (Raise TypeError)
  end.

Definition session_get (endpoint : string) (params : list (string * value)) : M response :=
  fun w => (http (clock w) endpoint params,
            {| clock := S (clock w); trace := trace w ++ [EvGet endpoint params] |}).

Definition format_search_result (index : Z) (result : Video) : string :=
  RESULT (Text.of_Z index)
         (title result)
         (YOUTUBE_VIDEO_URL (str (id result)))
         Emojis_post_detail
         Emojis_user
         (username result)
         Emojis_view
         (str (view_count (video_statistics result)))
         Emojis_like
         (str (like_count (video_statistics result))).

Definition stats_params (id : value) : list (string * value) :=
  [("part", VStr "statistics"); ("id", id); ("key", KEY)].

Definition get_statistics (id : value) : M (option VideoStatistics) :=
  response <- session_get STATS_API (stats_params id) ;;
  if negb (status response =? 200)%Z then
    log_error ("YouTube statistics response not successful: response code "
               ++ Text.of_Z (status response))%string ;;;
    ret None
  else
    body <- lift (json response) ;;
    items <- lift (getitem body "items") ;;
    first <- lift (getitem0 items) ;;
    statistics <- lift (getitem first "statistics") ;;
    viewCount <- lift (getitem statistics "viewCount") ;;
    likeCount <- lift (getitem statistics "likeCount") ;;
    ret (Some {| view_count := viewCount; like_count := likeCount |}).

Definition search_params (search : string) : list (string * value) :=
  [("part", VStr "snippet"); ("q", VStr search); ("safeSearch", VStr "strict");
   ("type", VStr "video"); ("key", KEY)].

(** The body of the [for] loop, over the items still to visit; [results]
    is the list built so far. *)
Fixpoint search_loop (items : list value) (results : list Video) : M (option (list Video)) :=
  match items with
  | [] => ret (Some results)
  | item :: rest =>
      item_id <- lift (getitem item "id") ;;
      videoId <- lift (getitem item_id "videoId") ;;
      video_statistics <- get_statistics videoId ;;
      match video_statistics with
      | None =>
          log_warning "YouTube statistics response not successful, aborting youtube search" ;;;
          ret None
      | Some video_statistics =>
          snippet <- lift (getitem item "snippet") ;;
          raw_title <- lift (getitem snippet "title") ;;
          title <- clean raw_title ;;
          snippet' <- lift (getitem item "snippet") ;;
          channelTitle <- lift (getitem snippet' "channelTitle") ;;
          username <- clean channelTitle ;;
          item_id' <- lift (getitem item "id") ;;
          videoId' <- lift (getitem item_id' "videoId") ;;
          search_loop rest
            (results ++ [{| title := title; username := username; id := videoId';
                            video_statistics := video_statistics |}])
      end
  end.

Definition search_youtube (search : string) : M (option (list Video)) :=
  response <- session_get SEARCH_API (search_params search) ;;
  if negb (status response =? 200)%Z then
    log_error ("YouTube search response not successful: response code "
               ++ Text.of_Z (status response))%string ;;;
    ret None
  else
    video_snippet <- lift (json response) ;;
    items <- lift (getitem video_snippet "items") ;;
    items <- lift (iter items) ;;
    search_loop items [].

Definition success_embed (search description : string) : Embed :=
  {| embed_colour := Colours_dark_green;
     embed_title := (Emojis_youtube ++ " YouTube results for `" ++ search ++ "`")%string;
     embed_url := Some (YOUTUBE_SEARCH_URL (quote_plus search));
     embed_description := description |}.

Definition failure_embed : Embed :=
  {| embed_colour := Colours_soft_red;
     embed_title := "Something went wrong :/";
     embed_url := None;
     embed_description := "Sorry, we could not find a YouTube video." |}.

(** The command.  [if results:] holds for a list that is not empty. *)
Definition youtube (search : string) : M unit :=
  results <- search_youtube search ;;
  match results with
  | Some ((_ :: _) as results) =>
      let description :=
        String.concat Text.nl
          (map (fun '(index, result) => format_search_result index result)
               (enumerate 1 results)) in
      ctx_send (success_embed search description)
  | _ => ctx_send failure_embed
  end.

(** *** How the coroutines run *)

Lemma bind_ok {A B : Type} (c : M A) (k : A -> M B) (w w' : world) (a : A) :
  c w = (Ok a, w') -> bind c k w = k a w'.
Proof. unfold bind. now intros ->. Qed.

Lemma bind_raise {A B : Type} (c : M A) (k : A -> M B) (w w' : world) (e : exn) :
  c w = (Raise e, w') -> bind c k w = (Raise e, w').
Proof. unfold bind. now intros ->. Qed.

Lemma bind_lift_ok {A B : Type} (r : outcome A) (k : A -> M B) (w : world) (a : A) :
  r = Ok a -> bind (lift r) k w = k a w.
Proof. now intros ->. Qed.

(** The world one request later. *)
Definition requested (endpoint : string) (params : list (string * value)) (w : world) : world :=
  {| clock := S (clock w); trace := trace w ++ [EvGet endpoint params] |}.

Definition logged (lvl : level) (msg : string) (w : world) : world :=
  {| clock := clock w; trace := trace w ++ [EvLog lvl msg] |}.

Definition sent (embed : Embed) (w : world) : world :=
  {| clock := clock w; trace := trace w ++ [EvSend embed] |}.

(** The outcome of the statistics fetch for [id] issued as request number
    [n]: [get_statistics] reads nothing else of the world. *)
Definition fetch (n : nat) (id : value) : outcome (option VideoStatistics) :=
  fst (get_statistics id {| clock := n; trace := [] |}).

(** The log record a fetch leaves: one error when the status is not 200. *)
Definition fetch_log (n : nat) (id : value) : list event :=
  match http n STATS_API (stats_params id) with
  | Ok r =>
      if negb (status r =? 200)%Z
      then [EvLog ERROR ("YouTube statistics response not successful: response code "
                         ++ Text.of_Z (status r))%string]
      else []
  | Raise _ => []
  end.

Definition fetched (id : value) (w : world) : world :=
  {| clock := S (clock w);
     trace := trace w ++ EvGet STATS_API (stats_params id) :: fetch_log (clock w) id |}.

Lemma get_statistics_eq (id : value) (w : world) :
  get_statistics id w = (fetch (clock w) id, fetched id w).
Proof.
  unfold fetch, fetched, fetch_log, get_statistics, bind, session_get, log_error,
    emit, lift, ret. simpl.
  destruct (http (clock w) STATS_API (stats_params id)) as [r|e]; [|reflexivity].
  destruct (negb (status r =? 200)%Z); simpl.
  { now rewrite <- app_assoc. }
  destruct (json r) as [body|e]; [|reflexivity].
  destruct (getitem body "items") as [items|e]; [|reflexivity].
  destruct (getitem0 items) as [first|e]; [|reflexivity].
  destruct (getitem first "statistics") as [st|e]; [|reflexivity].
  destruct (getitem st "viewCount") as [vc|e]; [|reflexivity].
  destruct (getitem st "likeCount") as [lc|e]; reflexivity.
Qed.

Lemma fetch_log_success (n : nat) (id : value) (vs : VideoStatistics) :
  fetch n id = Ok (Some vs) -> fetch_log n id = [].
Proof.
  unfold fetch, fetch_log, get_statistics, bind, session_get, log_error, emit, lift, ret.
  simpl.
  destruct (http n STATS_API (stats_params id)) as [r|e]; [|reflexivity].
  destruct (negb (status r =? 200)%Z); [discriminate | reflexivity].
Qed.

Lemma replies_app (t u : list event) : replies (t ++ u) = replies t ++ replies u.
Proof. unfold replies. now rewrite flat_map_app. Qed.

Lemma replies_fetch_log (n : nat) (id : value) : replies (fetch_log n id) = [].
Proof.
  unfold fetch_log. destruct (http n STATS_API (stats_params id)) as [r|e]; [|reflexivity].
  now destruct (negb (status r =? 200)%Z).
Qed.

(** *** One turn of the loop *)

(** [item_video item v]: [item] has the shape the loop reads, and [v]
    holds what the loop takes from it. *)
Definition item_video (item : value) (v : Video) : Prop :=
  exists item_id snippet raw_title channelTitle,
    getitem item "id" = Ok item_id /\
    getitem item_id "videoId" = Ok (id v) /\
    getitem item "snippet" = Ok snippet /\
    getitem snippet "title" = Ok (VStr raw_title) /\
    getitem snippet "channelTitle" = Ok (VStr channelTitle) /\
    title v = escape_markdown (unescape raw_title) /\
    username v = escape_markdown (unescape channelTitle).

Lemma search_loop_absent (item item_id videoId : value) (rest : list value)
      (results : list Video) (w : world) :
  getitem item "id" = Ok item_id ->
  getitem item_id "videoId" = Ok videoId ->
  fetch (clock w) videoId = Ok None ->
  search_loop (item :: rest) results w =
    (Ok None,
     logged WARNING "YouTube statistics response not successful, aborting youtube search"
            (fetched videoId w)).
Proof.
  intros Hid Hvid Hfetch. simpl.
  rewrite (bind_lift_ok _ _ _ _ Hid), (bind_lift_ok _ _ _ _ Hvid).
  unfold bind at 1. now rewrite get_statistics_eq, Hfetch.
Qed.

Lemma search_loop_raise (item item_id videoId : value) (rest : list value)
      (results : list Video) (w : world) (e : exn) :
  getitem item "id" = Ok item_id ->
  getitem item_id "videoId" = Ok videoId ->
  fetch (clock w) videoId = Raise e ->
  search_loop (item :: rest) results w = (Raise e, fetched videoId w).
Proof.
  intros Hid Hvid Hfetch. simpl.
  rewrite (bind_lift_ok _ _ _ _ Hid), (bind_lift_ok _ _ _ _ Hvid).
  unfold bind at 1. now rewrite get_statistics_eq, Hfetch.
Qed.

Lemma search_loop_ok (item : value) (v : Video) (rest : list value)
      (results : list Video) (w : world) :
  item_video item v ->
  fetch (clock w) (id v) = Ok (Some (video_statistics v)) ->
  search_loop (item :: rest) results w =
    search_loop rest (results ++ [v])
                (requested STATS_API (stats_params (id v)) w).
Proof.
  intros (item_id & snippet & t & c & Hid & Hvid & Hsn & Ht & Hc & Htitle & Huser) Hfetch.
  simpl.
  rewrite (bind_lift_ok _ _ _ _ Hid), (bind_lift_ok _ _ _ _ Hvid).
  unfold bind at 1. rewrite get_statistics_eq, Hfetch.
  rewrite (bind_lift_ok _ _ _ _ Hsn), (bind_lift_ok _ _ _ _ Ht).
  unfold clean at 1. unfold bind at 1, ret at 1.
  rewrite (bind_lift_ok _ _ _ _ Hsn), (bind_lift_ok _ _ _ _ Hc).
  unfold clean at 1. unfold bind at 1, ret at 1.
  rewrite (bind_lift_ok _ _ _ _ Hid), (bind_lift_ok _ _ _ _ Hvid).
  unfold fetched, requested. rewrite (fetch_log_success _ _ _ Hfetch).
  rewrite <- Htitle, <- Huser. now destruct v.
Qed.

(** *** The whole loop *)

Lemma Forall2_nth_error_r {A B : Type} (R : A -> B -> Prop) (l : list A) (l' : list B) :
  Forall2 R l l' ->
  forall k y, nth_error l' k = Some y ->
              exists x, nth_error l k = Some x /\ R x y.
Proof.
  induction 1 as [|x y l l' Hxy _ IH]; intros [|k] z Hk; simpl in Hk; try discriminate.
  - injection Hk as <-. exists x. now split.
  - exact (IH k z Hk).
Qed.

(** The requests the loop issues for the videos [vids], in order. *)
Definition fetches (vids : list Video) : list event :=
  map (fun v => EvGet STATS_API (stats_params (id v))) vids.

(** Every video of [vids] got its statistics from the fetch issued for
    it: the one for the video at position [k] is request [n + k]. *)
Definition fetched_from (n : nat) (vids : list Video) : Prop :=
  forall k v, nth_error vids k = Some v ->
              fetch (n + k) (id v) = Ok (Some (video_statistics v)).

Lemma fetched_from_tail (n : nat) (v : Video) (vids : list Video) :
  fetched_from n (v :: vids) -> fetched_from (S n) vids.
Proof.
  intros H k v' Hk. specialize (H (S k) v' Hk).
  now replace (S n + k) with (n + S k) by lia.
Qed.

(** While the fetches succeed, the loop appends one video per item. *)
Lemma search_loop_prefix (pre : list value) (vids : list Video) :
  Forall2 item_video pre vids ->
  forall (rest : list value) (results : list Video) (w : world),
    fetched_from (clock w) vids ->
    search_loop (pre ++ rest) results w =
      search_loop rest (results ++ vids)
                  {| clock := clock w + length pre;
                     trace := trace w ++ fetches vids |}.
Proof.
  induction 1 as [|item v pre vids Hiv _ IH]; intros rest results w Hf.
  - simpl. rewrite !app_nil_r, Nat.add_0_r. now destruct w.
  - assert (H0 : fetch (clock w) (id v) = Ok (Some (video_statistics v))).
    { specialize (Hf 0 v eq_refl). now rewrite Nat.add_0_r in Hf. }
    change ((item :: pre) ++ rest) with (item :: (pre ++ rest)).
    rewrite (search_loop_ok _ _ _ _ _ Hiv H0).
    rewrite IH by (apply (fetched_from_tail _ v); exact Hf).
    simpl. rewrite <- !app_assoc. simpl.
    now replace (S (clock w + length pre)) with (clock w + S (length pre)) by lia.
Qed.

(** What a returned list tells: one video per item, each with the
    statistics its own fetch returned. *)
Lemma search_loop_some (items : list value) :
  forall (results found : list Video) (w : world),
    fst (search_loop items results w) = Ok (Some found) ->
    exists vids,
      found = results ++ vids /\
      Forall2 item_video items vids /\
      fetched_from (clock w) vids.
Proof.
  induction items as [|item rest IH]; intros results found w H.
  - simpl in H. injection H as <-. exists []. rewrite app_nil_r.
    repeat split; [constructor | intros [|k] v Hk; discriminate].
  - simpl in H. mstep in H.
    destruct (getitem item "id") as [item_id|e] eqn:Hid; [|discriminate].
    mstep in H.
    destruct (getitem item_id "videoId") as [videoId|e] eqn:Hvid; [|discriminate].
    unfold bind at 1 in H. rewrite get_statistics_eq in H.
    destruct (fetch (clock w) videoId) as [[vs|]|e] eqn:Hfetch; [| discriminate | discriminate].
    mstep in H.
    destruct (getitem item "snippet") as [snippet|e] eqn:Hsn; [|discriminate].
    mstep in H.
    destruct (getitem snippet "title") as [raw_title|e] eqn:Ht; [|discriminate].
    unfold bind at 1 in H.
    destruct raw_title as [| | | |t| |]; try discriminate.
    unfold clean at 1, ret at 1 in H.
    do 2 mstep in H.
    destruct (getitem snippet "channelTitle") as [channelTitle|e] eqn:Hc; [|discriminate].
    unfold bind at 1 in H.
    destruct channelTitle as [| | | |c| |]; try discriminate.
    unfold clean at 1, ret at 1 in H.
    do 2 mstep in H.
    rewrite Hvid in H.
    apply IH in H. destruct H as (vids & -> & Hall & Hf).
    set (v := {| title := escape_markdown (unescape t);
                 username := escape_markdown (unescape c);
                 id := videoId; video_statistics := vs |}) in *.
    exists (v :: vids). rewrite <- app_assoc. split; [reflexivity|]. split.
    + constructor; [|exact Hall].
      exists item_id, snippet, t, c. now repeat split.
    + intros [|k] v' Hk; simpl in Hk.
      * injection Hk as <-. now rewrite Nat.add_0_r.
      * specialize (Hf k v' Hk). simpl in Hf.
        now replace (clock w + S k) with (S (clock w + k)) by lia.
Qed.

(** The loop sends nothing. *)
Lemma search_loop_replies (items : list value) :
  forall (results : list Video) (w : world),
    replies (trace (snd (search_loop items results w))) = replies (trace w).
Proof.
  induction items as [|item rest IH]; intros results w; [reflexivity|].
  assert (Hf : forall x, replies (trace (fetched x w)) = replies (trace w)).
  { intros x. unfold fetched. simpl. rewrite replies_app. simpl.
    rewrite replies_fetch_log. apply app_nil_r. }
  simpl. mstep.
  destruct (getitem item "id") as [item_id|e]; [|reflexivity].
  mstep.
  destruct (getitem item_id "videoId") as [videoId|e] eqn:Hvid; [|reflexivity].
  unfold bind at 1. rewrite get_statistics_eq.
  destruct (fetch (clock w) videoId) as [[vs|]|e]; [| | apply Hf].
  2:{ simpl. rewrite replies_app. simpl. rewrite app_nil_r. apply Hf. }
  mstep.
  destruct (getitem item "snippet") as [snippet|e]; [|apply Hf].
  mstep.
  destruct (getitem snippet "title") as [raw_title|e]; [|apply Hf].
  unfold bind at 1.
  destruct raw_title as [| | | |t| |]; try apply Hf.
  unfold clean at 1, ret at 1.
  do 2 mstep.
  destruct (getitem snippet "channelTitle") as [channelTitle|e]; [|apply Hf].
  unfold bind at 1.
  destruct channelTitle as [| | | |c| |]; try apply Hf.
  unfold clean at 1, ret at 1.
  do 2 mstep.
  rewrite Hvid. now rewrite IH.
Qed.

(** *** The search request *)

(** The search for [search] issued as request number [n] is answered with
    status 200 and a body whose ["items"] the loop visits as [items]. *)
Definition search_returns (n : nat) (search : string) (items : list value) : Prop :=
  exists r body items_value,
    http n SEARCH_API (search_params search) = Ok r /\
    status r = 200%Z /\
    json r = Ok body /\
    getitem body "items" = Ok items_value /\
    iter items_value = Ok items.

Lemma search_youtube_returns (search : string) (w : world) (items : list value) :
  search_returns (clock w) search items ->
  search_youtube search w =
    search_loop items [] (requested SEARCH_API (search_params search) w).
Proof.
  intros (r & body & iv & Hr & Hs & Hb & Hi & Hit).
  unfold search_youtube, bind at 1, session_get. rewrite Hr, Hs. simpl.
  now rewrite (bind_lift_ok _ _ _ _ Hb), (bind_lift_ok _ _ _ _ Hi),
    (bind_lift_ok _ _ _ _ Hit).
Qed.

Lemma search_youtube_not_200 (search : string) (w : world) (r : response) :
  http (clock w) SEARCH_API (search_params search) = Ok r ->
  status r <> 200%Z ->
  search_youtube search w =
    (Ok None,
     logged ERROR ("YouTube search response not successful: response code "
                   ++ Text.of_Z (status r))%string
            (requested SEARCH_API (search_params search) w)).
Proof.
  intros Hr Hs. apply Z.eqb_neq in Hs.
  unfold search_youtube, bind at 1, session_get. now rewrite Hr, Hs.
Qed.

Lemma search_youtube_some (search : string) (w : world) (found : list Video) :
  fst (search_youtube search w) = Ok (Some found) ->
  exists items,
    search_returns (clock w) search items /\
    Forall2 item_video items found /\
    fetched_from (S (clock w)) found.
Proof.
  intros H. unfold search_youtube, bind at 1, session_get in H.
  destruct (http (clock w) SEARCH_API (search_params search)) as [r|e] eqn:Hr;
    [|discriminate].
  destruct (status r =? 200)%Z eqn:Hs; [|discriminate]. simpl in H.
  mstep in H.
  destruct (json r) as [body|e] eqn:Hb; [|discriminate].
  mstep in H.
  destruct (getitem body "items") as [iv|e] eqn:Hi; [|discriminate].
  mstep in H.
  destruct (iter iv) as [items|e] eqn:Hit; [|discriminate].
  apply search_loop_some in H. destruct H as (vids & -> & Hall & Hf).
  exists items. split; [|now split].
  exists r, body, iv. apply Z.eqb_eq in Hs. now repeat split.
Qed.

Lemma search_youtube_replies (search : string) (w : world) :
  replies (trace (snd (search_youtube search w))) = replies (trace w).
Proof.
  assert (Hq : replies (trace (requested SEARCH_API (search_params search) w))
               = replies (trace w)).
  { simpl. rewrite replies_app. apply app_nil_r. }
  unfold search_youtube, bind at 1, session_get. fold (requested SEARCH_API (search_params search) w).
  destruct (http (clock w) SEARCH_API (search_params search)) as [r|e]; [|exact Hq].
  destruct (negb (status r =? 200)%Z).
  { simpl. rewrite !replies_app. simpl. now rewrite !app_nil_r. }
  mstep.
  destruct (json r) as [body|e]; [|exact Hq].
  mstep.
  destruct (getitem body "items") as [iv|e]; [|exact Hq].
  mstep.
  destruct (iter iv) as [items|e]; [|exact Hq].
  now rewrite search_loop_replies.
Qed.

(** The handler after the search has ended. *)
Definition reply_to (search : string) (results : option (list Video)) : Embed :=
  match results with
  | Some ((_ :: _) as results) =>
      success_embed search
        (String.concat Text.nl
           (map (fun '(index, result) => format_search_result index result)
                (enumerate 1 results)))
  | _ => failure_embed
  end.

Lemma youtube_eq (search : string) (w : world) :
  youtube search w =
    match search_youtube search w with
    | (Ok results, w') => (Ok tt, sent (reply_to search results) w')
    | (Raise e, w') => (Raise e, w')
    end.
Proof.
  unfold youtube, bind.
  destruct (search_youtube search w) as [[[[|v vs]|]|e] w']; reflexivity.
Qed.

(** ** The statistics fetcher *)

(** C7.  [get_statistics] returns absence exactly when the details
    endpoint answers with a status other than 200: such an answer gives
    [None] (no exception) after one error record that carries the status,
    and [None] comes from no other answer.  An answer of status 200 whose
    body has the shape [{"items": [{"statistics": {"viewCount": vc,
    "likeCount": lc}}, ...]}] gives the [VideoStatistics] of [vc] and [lc],
    read from the first entry of ["items"]. *)
Theorem get_statistics_absence_iff_not_200 (id : value) (w : world) :
  (forall r,
      http (clock w) STATS_API (stats_params id) = Ok r ->
      status r <> 200%Z ->
      get_statistics id w =
        (Ok None,
         logged ERROR ("YouTube statistics response not successful: response code "
                       ++ Text.of_Z (status r))%string
                (requested STATS_API (stats_params id) w)))
  /\ (fst (get_statistics id w) = Ok None ->
      exists r, http (clock w) STATS_API (stats_params id) = Ok r /\ status r <> 200%Z)
  /\ (forall r body first others statistics vc lc,
      http (clock w) STATS_API (stats_params id) = Ok r ->
      status r = 200%Z ->
      json r = Ok body ->
      getitem body "items" = Ok (VList (first :: others)) ->
      getitem first "statistics" = Ok statistics ->
      getitem statistics "viewCount" = Ok vc ->
      getitem statistics "likeCount" = Ok lc ->
      get_statistics id w =
        (Ok (Some {| view_count := vc; like_count := lc |}),
         requested STATS_API (stats_params id) w)).
Proof.
  split; [|split].
  - intros r Hr Hs. apply Z.eqb_neq in Hs.
    unfold get_statistics, bind at 1, session_get. now rewrite Hr, Hs.
  - unfold get_statistics, bind at 1, session_get.
    destruct (http (clock w) STATS_API (stats_params id)) as [r|e] eqn:Hr;
      [|discriminate].
    destruct (status r =? 200)%Z eqn:Hs; simpl.
    + unfold bind, lift, ret.
      destruct (json r) as [body|e]; [|discriminate].
      destruct (getitem body "items") as [items|e]; [|discriminate].
      destruct (getitem0 items) as [first|e]; [|discriminate].
      destruct (getitem first "statistics") as [st|e]; [|discriminate].
      destruct (getitem st "viewCount") as [vc|e]; [|discriminate].
      destruct (getitem st "likeCount") as [lc|e]; discriminate.
    + intros _. exists r. split; [reflexivity | now apply Z.eqb_neq].
  - intros r body first others st vc lc Hr Hs Hb Hi Hst Hvc Hlc.
    unfold get_statistics, bind at 1, session_get. rewrite Hr, Hs. simpl.
    rewrite (bind_lift_ok _ _ _ _ Hb), (bind_lift_ok _ _ _ _ Hi).
    simpl. mstep.
    now rewrite (bind_lift_ok _ _ _ _ Hst), (bind_lift_ok _ _ _ _ Hvc),
      (bind_lift_ok _ _ _ _ Hlc).
Qed.

(** ** The search fetcher *)

(** C3.  When the search endpoint answers with a status other than 200,
    [search_youtube] returns absence, and what it did is the search
    request and one error record: no request went to the details
    endpoint. *)
Theorem search_not_200_no_statistics_request
        (search : string) (w : world) (r : response) :
  http (clock w) SEARCH_API (search_params search) = Ok r ->
  status r <> 200%Z ->
  fst (search_youtube search w) = Ok None /\
  exists msg,
    trace (snd (search_youtube search w)) =
      trace w ++ [EvGet SEARCH_API (search_params search); EvLog ERROR msg] /\
    requests_to STATS_API
      [EvGet SEARCH_API (search_params search); EvLog ERROR msg] = [] /\
    clock (snd (search_youtube search w)) = S (clock w).
Proof.
  intros Hr Hs. rewrite (search_youtube_not_200 _ _ _ Hr Hs). split; [reflexivity|].
  eexists. split; [|split].
  - simpl. rewrite <- app_assoc. reflexivity.
  - reflexivity.
  - reflexivity.
Qed.

(** C1.  When the search returns [N] items of the API's shape and the [N]
    statistics fetches succeed, [search_youtube] returns the [N] videos of
    these items, in the order of the items, and the handler sends one
    reply.  For [N >= 1] it is the success reply: its description is [N]
    formatted lines joined by a line feed, the line at position [k] (from
    0) showing rank [k + 1] and the title, link, channel and counts of
    the video of item [k].  For [N = 0] it is the failure reply. *)
Theorem search_results_keep_api_order
        (search : string) (w : world) (items : list value) (vids : list Video) :
  search_returns (clock w) search items ->
  Forall2 item_video items vids ->
  fetched_from (S (clock w)) vids ->
  fst (search_youtube search w) = Ok (Some vids) /\
  length vids = length items /\
  exists lines reply,
    length lines = length items /\
    (forall k v,
        nth_error vids k = Some v ->
        nth_error lines k =
          Some ("**" ++ Text.of_Z (Z.of_nat (S k)) ++ ". [" ++ title v
                ++ "](https://www.youtube.com/watch?v=" ++ str (id v) ++ ")**"
                ++ Text.nl
                ++ Emojis_post_detail ++ " " ++ Emojis_user ++ " " ++ username v
                ++ " " ++ Emojis_view ++ " " ++ str (view_count (video_statistics v))
                ++ " " ++ Emojis_like ++ " " ++ str (like_count (video_statistics v))
                ++ Text.nl)%string) /\
    replies (trace (snd (youtube search w))) = replies (trace w) ++ [reply] /\
    (items <> [] ->
     reply = {| embed_colour := Colours_dark_green;
                embed_title :=
                  (Emojis_youtube ++ " YouTube results for `" ++ search ++ "`")%string;
                embed_url :=
                  Some ("https://www.youtube.com/results?search_query="
                        ++ quote_plus search)%string;
                embed_description := String.concat Text.nl lines |}) /\
    (items = [] ->
     reply = {| embed_colour := Colours_soft_red;
                embed_title := "Something went wrong :/";
                embed_url := None;
                embed_description := "Sorry, we could not find a YouTube video." |}).
Proof.
  intros Hs Hall Hf.
  assert (Hrun : search_youtube search w =
                 (Ok (Some vids),
                  {| clock := S (clock w) + length items;
                     trace := (trace w ++ [EvGet SEARCH_API (search_params search)])
                                ++ fetches vids |})).
  { rewrite (search_youtube_returns _ _ _ Hs).
    pose proof (search_loop_prefix _ _ Hall [] []
                  (requested SEARCH_API (search_params search) w) Hf) as Hloop.
    rewrite app_nil_r in Hloop. rewrite Hloop. reflexivity. }
  assert (Hlen : length vids = length items).
  { symmetry. exact (Forall2_length Hall). }
  split; [now rewrite Hrun|]. split; [exact Hlen|].
  exists (map (fun '(index, result) => format_search_result index result)
              (enumerate 1 vids)), (reply_to search (Some vids)).
  split; [|split; [|split; [|split]]].
  - now rewrite length_map, enumerate_length.
  - intros k v Hk. rewrite nth_error_map, (enumerate_nth_error _ 1 _ _ Hk).
    replace (Z.of_nat (S k)) with (1 + Z.of_nat k)%Z by lia. reflexivity.
  - rewrite youtube_eq, Hrun. simpl. rewrite !replies_app.
    unfold fetches. replace (replies (map _ vids)) with (@nil Embed).
    + simpl. now rewrite !app_nil_r.
    + clear. induction vids as [|v l IH]; [reflexivity | exact IH].
  - intros Hne. destruct Hall; [congruence | unfold reply_to; reflexivity].
  - intros ->. inversion Hall. reflexivity.
Qed.

(** C2.  All or nothing.  If the items before position [k] were turned
    into videos and the fetch for the item at position [k] returns
    absence, [search_youtube] returns absence, whatever it has built and
    whatever follows.  And a list that [search_youtube] returns holds,
    for every item of the search, a video whose statistics are what the
    fetch for that very item returned. *)
Theorem statistics_absence_aborts_search (search : string) (w : world) :
  (forall pre item post built item_id videoId,
      search_returns (clock w) search (pre ++ item :: post) ->
      Forall2 item_video pre built ->
      fetched_from (S (clock w)) built ->
      getitem item "id" = Ok item_id ->
      getitem item_id "videoId" = Ok videoId ->
      fetch (S (clock w) + length pre) videoId = Ok None ->
      fst (search_youtube search w) = Ok None)
  /\ (forall found,
      fst (search_youtube search w) = Ok (Some found) ->
      exists items,
        search_returns (clock w) search items /\
        length found = length items /\
        forall k v, nth_error found k = Some v ->
          exists item,
            nth_error items k = Some item /\
            item_video item v /\
            fetch (S (clock w) + k) (id v) = Ok (Some (video_statistics v))).
Proof.
  split.
  - intros pre item post built item_id videoId Hs Hall Hf Hid Hvid Habs.
    rewrite (search_youtube_returns _ _ _ Hs).
    rewrite (search_loop_prefix _ _ Hall (item :: post) []
               (requested SEARCH_API (search_params search) w) Hf).
    match goal with
    | |- fst (search_loop _ _ ?w') = _ =>
        now rewrite (search_loop_absent _ _ _ _ _ w' Hid Hvid Habs)
    end.
  - intros found H. apply search_youtube_some in H.
    destruct H as (items & Hs & Hall & Hf).
    exists items. split; [exact Hs|]. split.
    { symmetry. exact (Forall2_length Hall). }
    intros k v Hk.
    destruct (Forall2_nth_error_r _ _ _ Hall k v Hk) as (item & Hn & Hiv).
    exists item. split; [exact Hn|]. split; [exact Hiv|]. exact (Hf k v Hk).
Qed.

(** C5.  Every video [search_youtube] returns was built from an item
    of the search whose snippet holds a title and a channel title, and
    its [title] and [username] are these texts passed through
    [html.unescape] first and [escape_markdown] second; the formatted
    line shows exactly these two texts, the first between "[" and "]"
    after the rank, the second after the user emoji. *)
Theorem titles_unescaped_then_escaped
        (search : string) (w : world) (found : list Video) :
  fst (search_youtube search w) = Ok (Some found) ->
  exists items,
    search_returns (clock w) search items /\
    Forall2
      (fun item v =>
         exists snippet raw_title channelTitle,
           getitem item "snippet" = Ok snippet /\
           getitem snippet "title" = Ok (VStr raw_title) /\
           getitem snippet "channelTitle" = Ok (VStr channelTitle) /\
           title v = escape_markdown (unescape raw_title) /\
           username v = escape_markdown (unescape channelTitle) /\
           forall index,
             format_search_result index v =
               ("**" ++ Text.of_Z index ++ ". ["
                ++ escape_markdown (unescape raw_title)
                ++ "](https://www.youtube.com/watch?v=" ++ str (id v) ++ ")**"
                ++ Text.nl
                ++ Emojis_post_detail ++ " " ++ Emojis_user ++ " "
                ++ escape_markdown (unescape channelTitle)
                ++ " " ++ Emojis_view ++ " " ++ str (view_count (video_statistics v))
                ++ " " ++ Emojis_like ++ " " ++ str (like_count (video_statistics v))
                ++ Text.nl)%string)
      items found.
Proof.
  intros H. apply search_youtube_some in H. destruct H as (items & Hs & Hall & _).
  exists items. split; [exact Hs|].
  clear Hs. induction Hall as [|item v items found Hiv _ IH]; constructor; [|exact IH].
  destruct Hiv as (item_id & snippet & t & c & _ & _ & Hsn & Ht & Hc & Htitle & Huser).
  exists snippet, t, c. repeat split; try assumption.
  intros index. unfold format_search_result, RESULT, YOUTUBE_VIDEO_URL.
  now rewrite Htitle, Huser.
Qed.

(** [item_raises n item e]: one of the reads the loop makes of [item],
    when its fetch is request number [n], raises [e].  In the order of
    the loop: [item["id"]], then ["videoId"] of it, then the fetch, then,
    the fetch having returned statistics, [item["snippet"]], its
    ["title"], and, the title being a text, its ["channelTitle"]. *)
Definition item_raises (n : nat) (item : value) (e : exn) : Prop :=
  getitem item "id" = Raise e \/
  exists item_id,
    getitem item "id" = Ok item_id /\
    (getitem item_id "videoId" = Raise e \/
     exists videoId,
       getitem item_id "videoId" = Ok videoId /\
       (fetch n videoId = Raise e \/
        exists vs,
          fetch n videoId = Ok (Some vs) /\
          (getitem item "snippet" = Raise e \/
           exists snippet,
             getitem item "snippet" = Ok snippet /\
             (getitem snippet "title" = Raise e \/
              exists t,
                getitem snippet "title" = Ok (VStr t) /\
                getitem snippet "channelTitle" = Raise e)))).

(** [malformed_details m e]: the details body [m] lacks the shape
    [get_statistics] reads, and [e] is what the first failing read
    raises. *)
Definition malformed_details (m : list (string * value)) (e : exn) : Prop :=
  (assoc "items" m = None /\ e = KeyError (VStr "items")) \/
  (assoc "items" m = Some (VList []) /\ e = IndexError) \/
  exists first others,
    assoc "items" m = Some (VList (VDict first :: others)) /\
    ((assoc "statistics" first = None /\ e = KeyError (VStr "statistics")) \/
     exists st,
       assoc "statistics" first = Some (VDict st) /\
       ((assoc "viewCount" st = None /\ e = KeyError (VStr "viewCount")) \/
        exists vc,
          assoc "viewCount" st = Some vc /\
          assoc "likeCount" st = None /\ e = KeyError (VStr "likeCount"))).

Lemma search_loop_item_raises (item : value) (rest : list value)
      (results : list Video) (w : world) (e : exn) :
  item_raises (clock w) item e ->
  fst (search_loop (item :: rest) results w) = Raise e.
Proof.
  intros [Hid | (item_id & Hid & [Hvid | (videoId & Hvid & Hrest)])]; simpl.
  - mstep. now rewrite Hid.
  - rewrite (bind_lift_ok _ _ _ _ Hid). mstep. now rewrite Hvid.
  - rewrite (bind_lift_ok _ _ _ _ Hid), (bind_lift_ok _ _ _ _ Hvid).
    unfold bind at 1. rewrite get_statistics_eq.
    destruct Hrest as [Hfetch | (vs & Hfetch & Hsnippet)]; rewrite Hfetch;
      [reflexivity|].
    destruct Hsnippet as [Hsn | (snippet & Hsn & [Ht | (t & Ht & Hc)])].
    + mstep. now rewrite Hsn.
    + rewrite (bind_lift_ok _ _ _ _ Hsn). mstep. now rewrite Ht.
    + rewrite (bind_lift_ok _ _ _ _ Hsn), (bind_lift_ok _ _ _ _ Ht).
      unfold clean at 1. unfold bind at 1, ret at 1.
      rewrite (bind_lift_ok _ _ _ _ Hsn). mstep. now rewrite Hc.
Qed.

Lemma fetch_malformed (n : nat) (id : value) (r : response)
      (m : list (string * value)) (e : exn) :
  http n STATS_API (stats_params id) = Ok r ->
  status r = 200%Z ->
  json r = Ok (VDict m) ->
  malformed_details m e ->
  fetch n id = Raise e.
Proof.
  intros Hr Hs Hb Hm.
  unfold fetch, get_statistics, bind at 1, session_get. simpl. rewrite Hr, Hs. simpl.
  rewrite (bind_lift_ok _ _ _ _ Hb). unfold bind, lift, ret, getitem0, getitem.
  destruct Hm as [(-> & ->) | [(-> & ->) | (first & others & -> & Hfirst)]];
    [reflexivity | reflexivity |].
  destruct Hfirst as [(-> & ->) | (st & -> & Hst)]; [reflexivity|].
  destruct Hst as [(-> & ->) | (vc & -> & -> & ->)]; reflexivity.
Qed.

(** C9.  A body of status 200 that lacks the expected shape is not
    turned into absence.  [get_statistics] raises [KeyError] when
    ["items"], ["statistics"], ["viewCount"] or ["likeCount"] is missing
    and [IndexError] when ["items"] is an empty array.  [search_youtube]
    raises [KeyError] when the search body has no ["items"].  At any
    position of the items, the items before having been turned into
    videos, whatever a read of the item raises (a missing ["id"],
    ["videoId"], ["snippet"], ["title"] or ["channelTitle"], or the
    item's fetch) and whatever a malformed details body makes the fetch
    raise comes out of [search_youtube] and of the handler, which then
    sends nothing. *)
Theorem malformed_body_raises (w : world) :
  (forall id r m,
      http (clock w) STATS_API (stats_params id) = Ok r ->
      status r = 200%Z ->
      json r = Ok (VDict m) ->
      let raises e :=
        get_statistics id w = (Raise e, requested STATS_API (stats_params id) w) in
      (assoc "items" m = None -> raises (KeyError (VStr "items"))) /\
      (assoc "items" m = Some (VList []) -> raises IndexError) /\
      (forall first others,
          assoc "items" m = Some (VList (VDict first :: others)) ->
          (assoc "statistics" first = None -> raises (KeyError (VStr "statistics"))) /\
          (forall st,
              assoc "statistics" first = Some (VDict st) ->
              (assoc "viewCount" st = None -> raises (KeyError (VStr "viewCount"))) /\
              (forall vc, assoc "viewCount" st = Some vc ->
                          assoc "likeCount" st = None ->
                          raises (KeyError (VStr "likeCount"))))))
  /\ (forall search r m,
      http (clock w) SEARCH_API (search_params search) = Ok r ->
      status r = 200%Z ->
      json r = Ok (VDict m) ->
      assoc "items" m = None ->
      search_youtube search w =
        (Raise (KeyError (VStr "items")),
         requested SEARCH_API (search_params search) w))
  /\ (forall search pre item post built e,
      search_returns (clock w) search (pre ++ item :: post) ->
      Forall2 item_video pre built ->
      fetched_from (S (clock w)) built ->
      item_raises (S (clock w) + length pre) item e ->
      fst (search_youtube search w) = Raise e /\
      fst (youtube search w) = Raise e /\
      replies (trace (snd (youtube search w))) = replies (trace w))
  /\ (forall search pre item post built item_id videoId r m e,
      search_returns (clock w) search (pre ++ item :: post) ->
      Forall2 item_video pre built ->
      fetched_from (S (clock w)) built ->
      getitem item "id" = Ok item_id ->
      getitem item_id "videoId" = Ok videoId ->
      http (S (clock w) + length pre) STATS_API (stats_params videoId) = Ok r ->
      status r = 200%Z ->
      json r = Ok (VDict m) ->
      malformed_details m e ->
      fst (search_youtube search w) = Raise e /\
      fst (youtube search w) = Raise e /\
      replies (trace (snd (youtube search w))) = replies (trace w)).
Proof.
  assert (Hitem : forall search pre item post built e,
             search_returns (clock w) search (pre ++ item :: post) ->
             Forall2 item_video pre built ->
             fetched_from (S (clock w)) built ->
             item_raises (S (clock w) + length pre) item e ->
             fst (search_youtube search w) = Raise e /\
             fst (youtube search w) = Raise e /\
             replies (trace (snd (youtube search w))) = replies (trace w)).
  { intros search pre item post built e Hs Hall Hf Hraise.
    assert (Hrun : fst (search_youtube search w) = Raise e).
    { rewrite (search_youtube_returns _ _ _ Hs).
      rewrite (search_loop_prefix _ _ Hall (item :: post) []
                 (requested SEARCH_API (search_params search) w) Hf).
      apply search_loop_item_raises. exact Hraise. }
    pose proof (search_youtube_replies search w) as Hrep.
    rewrite youtube_eq.
    destruct (search_youtube search w) as [o w']. simpl in Hrun, Hrep. subst o.
    simpl. now repeat split. }
  split; [|split; [|split]].
  - intros id r m Hr Hs Hb raises.
    assert (Hrun : get_statistics id w =
                   (items <- lift (getitem (VDict m) "items") ;;
                    first <- lift (getitem0 items) ;;
                    statistics <- lift (getitem first "statistics") ;;
                    viewCount <- lift (getitem statistics "viewCount") ;;
                    likeCount <- lift (getitem statistics "likeCount") ;;
                    ret (Some {| view_count := viewCount; like_count := likeCount |}))
                     (requested STATS_API (stats_params id) w)).
    { unfold get_statistics, bind at 1, session_get. rewrite Hr, Hs. simpl.
      now rewrite (bind_lift_ok _ _ _ _ Hb). }
    subst raises. cbv beta. rewrite Hrun. clear Hrun.
    unfold bind, lift, ret, getitem0, getitem.
    split; [|split].
    + now intros ->.
    + now intros ->.
    + intros first others ->. split.
      * now intros ->.
      * intros st ->. split.
        -- now intros ->.
        -- intros vc -> Hlc. now rewrite Hlc.
  - intros search r m Hr Hs Hb Hi.
    unfold search_youtube, bind at 1, session_get. rewrite Hr, Hs. simpl.
    rewrite (bind_lift_ok _ _ _ _ Hb).
    mstep. unfold getitem at 1. now rewrite Hi.
  - exact Hitem.
  - intros search pre item post built item_id videoId r m e
           Hs Hall Hf Hid Hvid Hr Hst Hb Hm.
    apply (Hitem search pre item post built e Hs Hall Hf).
    right. exists item_id. split; [exact Hid|]. right. exists videoId.
    split; [exact Hvid|]. left. exact (fetch_malformed _ _ _ _ _ Hr Hst Hb Hm).
Qed.

(** ** The formatter *)

(** C6.  For one video, two different ranks give two different lines, and
    the lines of all ranks are the two characters "**", the rank in
    decimal, and one text that does not depend on the rank. *)
Theorem format_search_result_injective_on_rank (v : Video) (i j : Z) :
  i <> j ->
  format_search_result i v <> format_search_result j v /\
  exists after,
    forall index,
      format_search_result index v = ("**" ++ Text.of_Z index ++ after)%string.
Proof.
  intros Hij.
  assert (Hshape : exists after, forall index,
             format_search_result index v = ("**" ++ Text.of_Z index ++ after)%string).
  { eexists. intros index. unfold format_search_result, RESULT. reflexivity. }
  split; [|exact Hshape].
  destruct Hshape as (after & Hshape). rewrite !Hshape. intros Heq.
  apply Text.append_inv_head, Text.append_inv_tail, Text.of_Z_inj in Heq.
  contradiction.
Qed.

(** ** The command handler *)

(** C8, as amended.  When [search_youtube] returns, the handler returns
    after sending one reply, and the reply for absence and the reply for
    an empty list are the same fixed failure message.  When
    [search_youtube] raises, the handler raises the same exception and
    sends nothing. *)
Theorem one_reply_when_search_returns (search : string) (w : world) :
  match fst (search_youtube search w) with
  | Ok results =>
      exists reply,
        fst (youtube search w) = Ok tt /\
        replies (trace (snd (youtube search w))) = replies (trace w) ++ [reply] /\
        (results = None \/ results = Some [] ->
         reply = {| embed_colour := Colours_soft_red;
                    embed_title := "Something went wrong :/";
                    embed_url := None;
                    embed_description := "Sorry, we could not find a YouTube video." |})
  | Raise e =>
      fst (youtube search w) = Raise e /\
      replies (trace (snd (youtube search w))) = replies (trace w)
  end.
Proof.
  pose proof (search_youtube_replies search w) as Hrep.
  rewrite youtube_eq. destruct (search_youtube search w) as [[results|e] w']; simpl in *.
  - exists (reply_to search results). split; [reflexivity|]. split.
    + now rewrite replies_app, Hrep.
    + intros [-> | ->]; reflexivity.
  - now split.
Qed.

(** C10.  The success reply links to
    "https://www.youtube.com/results?search_query=" followed by
    [quote_plus(search)], and its title holds the search text as typed,
    between backquotes. *)
Theorem success_reply_link_and_title
        (search : string) (w : world) (v : Video) (found : list Video) :
  fst (search_youtube search w) = Ok (Some (v :: found)) ->
  exists description,
    replies (trace (snd (youtube search w))) =
      replies (trace w)
      ++ [{| embed_colour := Colours_dark_green;
             embed_title := (Emojis_youtube ++ " YouTube results for `" ++ search ++ "`")%string;
             embed_url := Some ("https://www.youtube.com/results?search_query="
                                ++ quote_plus search)%string;
             embed_description := description |}].
Proof.
  intros H. pose proof (search_youtube_replies search w) as Hrep.
  rewrite youtube_eq. destruct (search_youtube search w) as [r w']. simpl in *.
  subst r. eexists. simpl. rewrite replies_app, Hrep. reflexivity.
Qed.

(** ** What a run leaves in the world *)

(** [item] holds the video identifier [id] where the loop reads it. *)
Definition has_video_id (item id : value) : Prop :=
  exists item_id,
    getitem item "id" = Ok item_id /\ getitem item_id "videoId" = Ok id.

(** One details request per identifier, in order. *)
Definition fetch_events (ids : list value) : list event :=
  map (fun id => EvGet STATS_API (stats_params id)) ids.

(** The three log records of the module. *)
Definition search_error (code : Z) : event :=
  EvLog ERROR ("YouTube search response not successful: response code "
               ++ Text.of_Z code)%string.

Definition statistics_error (code : Z) : event :=
  EvLog ERROR ("YouTube statistics response not successful: response code "
               ++ Text.of_Z code)%string.

Definition abort_warning : event :=
  EvLog WARNING "YouTube statistics response not successful, aborting youtube search".

Lemma fetch_log_cases (n : nat) (id : value) :
  match fetch n id with
  | Ok None => exists code, code <> 200%Z /\ fetch_log n id = [statistics_error code]
  | _ => fetch_log n id = []
  end.
Proof.
  unfold fetch, fetch_log, get_statistics, bind, session_get, log_error, emit, lift, ret.
  simpl.
  destruct (http n STATS_API (stats_params id)) as [r|e]; [|reflexivity].
  destruct (status r =? 200)%Z eqn:Hs; simpl.
  - destruct (json r) as [body|e]; [|reflexivity].
    destruct (getitem body "items") as [items|e]; [|reflexivity].
    destruct (getitem0 items) as [first|e]; [|reflexivity].
    destruct (getitem first "statistics") as [st|e]; [|reflexivity].
    destruct (getitem st "viewCount") as [vc|e]; [|reflexivity].
    destruct (getitem st "likeCount") as [lc|e]; reflexivity.
  - exists (status r). split; [now apply Z.eqb_neq | reflexivity].
Qed.

(** The shape of a run of the loop over [items] from the world [w]: it
    visited a prefix of the items, issued one details request for each
    visited item, and wrote log records only when it gave up on an absent
    fetch. *)
Definition loop_shape (items : list value) (w : world)
           (run : outcome (option (list Video)) * world) : Prop :=
  exists visited rest ids tail,
    items = visited ++ rest /\
    Forall2 has_video_id visited ids /\
    trace (snd run) = trace w ++ fetch_events ids ++ tail /\
    clock (snd run) = clock w + length ids /\
    match fst run with
    | Ok (Some _) => tail = [] /\ rest = []
    | Ok None =>
        exists code,
          code <> 200%Z /\ ids <> [] /\ tail = [statistics_error code; abort_warning]
    | Raise _ => tail = []
    end.

Lemma loop_shape_raise_before (items : list value) (w : world) (e : exn) :
  loop_shape items w (Raise e, w).
Proof.
  exists [], items, [], []. simpl. rewrite app_nil_r, Nat.add_0_r.
  repeat split. constructor.
Qed.

Lemma loop_shape_raise_after (item videoId : value) (items : list value)
      (w : world) (e : exn) :
  has_video_id item videoId ->
  fetch_log (clock w) videoId = [] ->
  loop_shape (item :: items) w (Raise e, fetched videoId w).
Proof.
  intros Hhas Hlog. exists [item], items, [videoId], []. simpl. rewrite Hlog.
  repeat split; [repeat constructor; exact Hhas | lia].
Qed.

Lemma search_loop_run (items : list value) :
  forall (results : list Video) (w : world),
    loop_shape items w (search_loop items results w).
Proof.
  induction items as [|item items IH]; intros results w.
  { exists [], [], [], []. simpl. rewrite app_nil_r, Nat.add_0_r.
    repeat split. constructor. }
  simpl search_loop. mstep.
  destruct (getitem item "id") as [item_id|e] eqn:Hid;
    [|apply loop_shape_raise_before].
  mstep.
  destruct (getitem item_id "videoId") as [videoId|e] eqn:Hvid;
    [|apply loop_shape_raise_before].
  assert (Hhas : has_video_id item videoId) by now exists item_id.
  unfold bind at 1. rewrite get_statistics_eq.
  pose proof (fetch_log_cases (clock w) videoId) as Hlog.
  destruct (fetch (clock w) videoId) as [[vs|]|e] eqn:Hfetch.
  - (* the fetch succeeded *)
    pose proof (fun e => loop_shape_raise_after item videoId items w e Hhas Hlog)
      as Hafter.
    mstep.
    destruct (getitem item "snippet") as [snippet|e] eqn:Hsn; [|apply Hafter].
    mstep.
    destruct (getitem snippet "title") as [raw_title|e]; [|apply Hafter].
    unfold bind at 1.
    destruct raw_title as [| | | |t| |]; try apply Hafter.
    unfold clean at 1, ret at 1.
    do 2 mstep.
    destruct (getitem snippet "channelTitle") as [channelTitle|e]; [|apply Hafter].
    unfold bind at 1.
    destruct channelTitle as [| | | |c| |]; try apply Hafter.
    unfold clean at 1, ret at 1.
    do 2 mstep. rewrite Hvid.
    match goal with
    | |- context [search_loop items ?acc (fetched videoId w)] =>
        destruct (IH acc (fetched videoId w))
          as (visited & rest & ids & tail & Hsplit & Hall & Htrace & Hclock & Hend)
    end.
    exists (item :: visited), rest, (videoId :: ids), tail.
    split; [now rewrite Hsplit|]. split; [constructor; [exact Hhas | exact Hall]|].
    split; [|split].
    + rewrite Htrace. unfold fetched. simpl. rewrite Hlog, <- app_assoc. reflexivity.
    + rewrite Hclock. simpl. lia.
    + destruct (fst (search_loop items _ (fetched videoId w))) as [[found|]|e];
        [exact Hend | | exact Hend].
      destruct Hend as (code & Hcode & _ & Htail).
      exists code. repeat split; [exact Hcode | discriminate | exact Htail].
  - (* the fetch returned absence *)
    destruct Hlog as (code & Hcode & Hlog).
    exists [item], items, [videoId], [statistics_error code; abort_warning]. simpl.
    rewrite Hlog, <- app_assoc.
    repeat split; [repeat constructor; exact Hhas | lia |].
    exists code. repeat split; [exact Hcode | discriminate].
  - (* the fetch raised *)
    now apply loop_shape_raise_after.
Qed.

Lemma requests_to_app (endpoint : string) (t u : list event) :
  requests_to endpoint (t ++ u) = requests_to endpoint t ++ requests_to endpoint u.
Proof. unfold requests_to. now rewrite flat_map_app. Qed.

Lemma requests_to_fetch_events (ids : list value) :
  requests_to STATS_API (fetch_events ids) = map stats_params ids /\
  requests_to SEARCH_API (fetch_events ids) = [] /\
  replies (fetch_events ids) = [].
Proof.
  induction ids as [|id ids (IH1 & IH2 & IH3)]; [now repeat split|].
  repeat split; simpl; [now rewrite IH1 | exact IH2 | exact IH3].
Qed.

(** The shape of a run of [search_youtube] from the world [w]: the search
    request, then the details requests [ids], then the log records
    [tail], which are there only when the run ends in absence. *)
Definition search_shape (search : string) (w : world)
           (run : outcome (option (list Video)) * world)
           (ids : list value) (tail : list event) : Prop :=
  trace (snd run) =
    trace w ++ EvGet SEARCH_API (search_params search) :: fetch_events ids ++ tail /\
  clock (snd run) = S (clock w) + length ids /\
  match fst run with
  | Ok (Some _) => tail = []
  | Ok None =>
      exists code,
        code <> 200%Z /\
        ((ids = [] /\ tail = [search_error code]) \/
         (ids <> [] /\ tail = [statistics_error code; abort_warning]))
  | Raise _ => tail = []
  end.

Lemma search_shape_raise (search : string) (w : world) (e : exn) :
  search_shape search w (Raise e, requested SEARCH_API (search_params search) w) [] [].
Proof. repeat split; simpl; lia. Qed.

Lemma search_youtube_client_fault (search : string) (w : world) (e : exn) :
  http (clock w) SEARCH_API (search_params search) = Raise e ->
  search_youtube search w = (Raise e, requested SEARCH_API (search_params search) w).
Proof. intros Hr. unfold search_youtube, bind at 1, session_get. now rewrite Hr. Qed.

Lemma search_youtube_200 (search : string) (w : world) (r : response) :
  http (clock w) SEARCH_API (search_params search) = Ok r ->
  status r = 200%Z ->
  search_youtube search w =
    (video_snippet <- lift (json r) ;;
     items <- lift (getitem video_snippet "items") ;;
     items <- lift (iter items) ;;
     search_loop items [])
      (requested SEARCH_API (search_params search) w).
Proof.
  intros Hr Hs. unfold search_youtube, bind at 1, session_get. now rewrite Hr, Hs.
Qed.

Lemma search_youtube_run (search : string) (w : world) :
  exists ids tail, search_shape search w (search_youtube search w) ids tail.
Proof.
  destruct (http (clock w) SEARCH_API (search_params search)) as [r|e] eqn:Hr.
  2:{ rewrite (search_youtube_client_fault _ _ _ Hr).
      exists [], []. apply search_shape_raise. }
  destruct (Z.eq_dec (status r) 200) as [Hs|Hs].
  2:{ rewrite (search_youtube_not_200 _ _ _ Hr Hs).
      exists [], [search_error (status r)]. repeat split; simpl; [|lia|].
      - now rewrite <- app_assoc.
      - exists (status r). split; [exact Hs | now left]. }
  rewrite (search_youtube_200 _ _ _ Hr Hs).
  mstep. destruct (json r) as [body|e]; [|exists [], []; apply search_shape_raise].
  mstep. destruct (getitem body "items") as [iv|e];
    [|exists [], []; apply search_shape_raise].
  mstep. destruct (iter iv) as [items|e]; [|exists [], []; apply search_shape_raise].
  destruct (search_loop_run items [] (requested SEARCH_API (search_params search) w))
    as (visited & rest & ids & tail & Hsplit & Hall & Htrace & Hclock & Hend).
  exists ids, tail. unfold search_shape. rewrite Htrace, Hclock. split; [|split].
  - simpl. now rewrite <- app_assoc.
  - reflexivity.
  - destruct (fst (search_loop items [] _)) as [[found|]|e];
      [exact (proj1 Hend) | | exact Hend].
    destruct Hend as (code & Hcode & Hids & ->). exists code. split; [exact Hcode|].
    right. now split.
Qed.




(** A request of the loop: to the details endpoint, with the API key. *)
Definition details_request (e : event) : Prop :=
  match e with
  | EvGet endpoint params => endpoint = STATS_API /\ assoc "key" params = Some KEY
  | _ => True
  end.

Lemma details_request_fetch_events (ids : list value) :
  Forall details_request (fetch_events ids).
Proof.
  induction ids as [|id ids IH]; constructor; [|exact IH]. split; reflexivity.
Qed.

(** X1.  Whatever its outcome, an invocation starts with one search
    request, for the text as typed, with strict safe search and videos
    only; no other request goes to the search endpoint: the later ones go
    to the details endpoint, and each carries the API key. *)
Theorem one_search_request_per_invocation (search : string) (w : world) :
  exists rest,
    trace (snd (youtube search w)) =
      trace w
      ++ EvGet "https://www.googleapis.com/youtube/v3/search"
               [("part", VStr "snippet"); ("q", VStr search);
                ("safeSearch", VStr "strict"); ("type", VStr "video"); ("key", KEY)]
      :: rest /\
    requests_to SEARCH_API rest = [] /\
    Forall details_request rest.
Proof.
  destruct (search_youtube_run search w) as (ids & tail & Htrace & _ & Hend).
  destruct (requests_to_fetch_events ids) as (_ & Hsearch & _).
  pose proof (details_request_fetch_events ids) as Hdetails.
  assert (Htail : requests_to SEARCH_API tail = [] /\ Forall details_request tail).
  { destruct (fst (search_youtube search w)) as [[found|]|e]; subst; try now split.
    destruct Hend as (code & _ & [(_ & ->) | (_ & ->)]);
      split; try reflexivity; repeat constructor. }
  destruct Htail as (Htail1 & Htail2).
  rewrite youtube_eq.
  destruct (search_youtube search w) as [[results|e] w']; simpl in Htrace |- *.
  - exists (fetch_events ids ++ tail ++ [EvSend (reply_to search results)]).
    rewrite Htrace, <- app_assoc. simpl. rewrite <- app_assoc.
    split; [reflexivity|]. split.
    + rewrite !requests_to_app, Hsearch, Htail1. reflexivity.
    + apply Forall_app. split; [exact Hdetails|]. apply Forall_app. split; [exact Htail2|].
      repeat constructor.
  - exists (fetch_events ids ++ tail). split; [exact Htrace|]. split.
    + rewrite requests_to_app, Hsearch, Htail1. reflexivity.
    + apply Forall_app. now split.
Qed.

(** X2.  The details requests follow the items: when the search returns
    [items], the loop visits a prefix of them and issues one details
    request per visited item, in order, for the identifier that item
    holds; so there are at most as many requests as items, and a returned
    list means every item was visited. *)
Theorem statistics_requests_follow_items
        (search : string) (w : world) (items : list value) :
  search_returns (clock w) search items ->
  exists visited rest ids,
    items = visited ++ rest /\
    Forall2 has_video_id visited ids /\
    length ids <= length items /\
    requests_to STATS_API (trace (snd (search_youtube search w))) =
      requests_to STATS_API (trace w)
      ++ map (fun id => [("part", VStr "statistics"); ("id", id); ("key", KEY)]) ids /\
    (forall found, fst (search_youtube search w) = Ok (Some found) -> rest = []).
Proof.
  intros Hs. rewrite (search_youtube_returns _ _ _ Hs).
  destruct (search_loop_run items [] (requested SEARCH_API (search_params search) w))
    as (visited & rest & ids & tail & Hsplit & Hall & Htrace & _ & Hend).
  exists visited, rest, ids. split; [exact Hsplit|]. split; [exact Hall|]. split.
  { rewrite Hsplit, length_app, <- (Forall2_length Hall). lia. }
  destruct (requests_to_fetch_events ids) as (Hstats & _ & _).
  assert (Htail : requests_to STATS_API tail = []).
  { destruct (fst (search_loop items [] _)) as [[found|]|e].
    - now destruct Hend as (-> & _).
    - now destruct Hend as (code & _ & _ & ->).
    - now subst. }
  split.
  - rewrite Htrace. simpl trace. rewrite !requests_to_app, Hstats, Htail.
    simpl. now rewrite !app_nil_r.
  - intros found Hfound. rewrite Hfound in Hend. exact (proj2 Hend).
Qed.


(** X4.  A fault of the HTTP client, or a body of status 200 that is
    not JSON, is not caught: [get_statistics] raises it, and so does the
    handler when the search request meets it; all either has done by then
    is issue the request (no log record, no reply). *)
Theorem client_faults_are_raised (w : world) (e : exn) :
  (forall id,
      http (clock w) STATS_API (stats_params id) = Raise e ->
      get_statistics id w = (Raise e, requested STATS_API (stats_params id) w))
  /\ (forall id r,
      http (clock w) STATS_API (stats_params id) = Ok r ->
      status r = 200%Z ->
      json r = Raise e ->
      get_statistics id w = (Raise e, requested STATS_API (stats_params id) w))
  /\ (forall search,
      http (clock w) SEARCH_API (search_params search) = Raise e ->
      youtube search w = (Raise e, requested SEARCH_API (search_params search) w))
  /\ (forall search r,
      http (clock w) SEARCH_API (search_params search) = Ok r ->
      status r = 200%Z ->
      json r = Raise e ->
      youtube search w = (Raise e, requested SEARCH_API (search_params search) w)).
Proof.
  repeat split.
  - intros id Hr. unfold get_statistics, bind at 1, session_get. now rewrite Hr.
  - intros id r Hr Hs Hb. unfold get_statistics, bind at 1, session_get.
    rewrite Hr, Hs. simpl. mstep. now rewrite Hb.
  - intros search Hr. now rewrite youtube_eq, (search_youtube_client_fault _ _ _ Hr).
  - intros search r Hr Hs Hb. rewrite youtube_eq, (search_youtube_200 _ _ _ Hr Hs).
    mstep. now rewrite Hb.
Qed.

(** X5.  When ["items"] of a search body of status 200 is not an array,
    no details request is issued.  An empty text and an empty object are
    iterated as nothing, so the search returns the empty list; anything
    else raises [TypeError] (a number cannot be iterated, and a character
    of a text or a key of an object cannot be subscripted by ["id"]). *)
Theorem items_not_an_array
        (search : string) (w : world) (r : response) (body items_value : value) :
  http (clock w) SEARCH_API (search_params search) = Ok r ->
  status r = 200%Z ->
  json r = Ok body ->
  getitem body "items" = Ok items_value ->
  (forall l, items_value <> VList l) ->
  snd (search_youtube search w) = requested SEARCH_API (search_params search) w /\
  match items_value with
  | VStr EmptyString | VDict [] => fst (search_youtube search w) = Ok (Some [])
  | _ => fst (search_youtube search w) = Raise TypeError
  end.
Proof.
  intros Hr Hs Hb Hi Hlist. rewrite (search_youtube_200 _ _ _ Hr Hs).
  rewrite (bind_lift_ok _ _ _ _ Hb), (bind_lift_ok _ _ _ _ Hi).
  destruct items_value as [| b | z | f | [|c t] | l | [|[k v] m]];
    try (now split); exfalso; exact (Hlist l eq_refl).
Qed.

(** X6.  The reply tells whether videos were found: when
    [search_youtube] returns, the one reply links to the web search
    exactly when the returned list holds a video, and is the fixed failure
    message, without a link, exactly when the result is absence or the
    empty list. *)
Theorem reply_links_iff_videos_found
        (search : string) (w : world) (results : option (list Video)) :
  fst (search_youtube search w) = Ok results ->
  exists reply,
    replies (trace (snd (youtube search w))) = replies (trace w) ++ [reply] /\
    ((exists v found, results = Some (v :: found)) <->
     embed_url reply = Some (YOUTUBE_SEARCH_URL (quote_plus search))) /\
    (results = None \/ results = Some [] <-> reply = failure_embed).
Proof.
  intros H. pose proof (search_youtube_replies search w) as Hrep.
  rewrite youtube_eq. destruct (search_youtube search w) as [r w']. simpl in H, Hrep.
  subst r. exists (reply_to search results). simpl. rewrite replies_app, Hrep.
  split; [reflexivity|].
  destruct results as [[|v found]|]; simpl; split; split;
    try discriminate; try tauto; try (intros (v' & found' & [=]));
    try (intros [[=]|[=]]); eauto.
Qed.

Definition is_text (v : value) : bool :=
  match v with
  | VStr _ => true
  | _ => false
  end.

Lemma search_loop_not_text (item item_id videoId snippet raw : value)
      (vs : VideoStatistics) (rest : list value) (results : list Video) (w : world) :
  getitem item "id" = Ok item_id ->
  getitem item_id "videoId" = Ok videoId ->
  fetch (clock w) videoId = Ok (Some vs) ->
  getitem item "snippet" = Ok snippet ->
  (getitem snippet "title" = Ok raw \/
   exists t, getitem snippet "title" = Ok (VStr t) /\
             getitem snippet "channelTitle" = Ok raw) ->
  is_text raw = false ->
  search_loop (item :: rest) results w =
    (Raise TypeError, requested STATS_API (stats_params videoId) w).
Proof.
  intros Hid Hvid Hfetch Hsn Hraw Htext. simpl.
  rewrite (bind_lift_ok _ _ _ _ Hid), (bind_lift_ok _ _ _ _ Hvid).
  unfold bind at 1. rewrite get_statistics_eq, Hfetch.
  unfold fetched. rewrite (fetch_log_success _ _ _ Hfetch).
  rewrite (bind_lift_ok _ _ _ _ Hsn).
  destruct Hraw as [Ht | (t & Ht & Hc)]; rewrite (bind_lift_ok _ _ _ _ Ht).
  - unfold bind at 1. now destruct raw.
  - unfold clean at 1. unfold bind at 1, ret at 1.
    rewrite (bind_lift_ok _ _ _ _ Hsn), (bind_lift_ok _ _ _ _ Hc).
    unfold bind at 1. now destruct raw.
Qed.

(** X7.  A title or a channel title that is not a text is not rendered:
    [unescape] and [escape_markdown] raise [TypeError] on it, the handler
    raises it too and sends nothing.  The details request for that item
    was issued before its snippet was read, so the trace holds it. *)
Theorem title_not_text_raises
        (search : string) (w : world) (pre post : list value) (built : list Video)
        (item item_id videoId snippet raw : value) (vs : VideoStatistics) :
  search_returns (clock w) search (pre ++ item :: post) ->
  Forall2 item_video pre built ->
  fetched_from (S (clock w)) built ->
  getitem item "id" = Ok item_id ->
  getitem item_id "videoId" = Ok videoId ->
  fetch (S (clock w) + length pre) videoId = Ok (Some vs) ->
  getitem item "snippet" = Ok snippet ->
  (getitem snippet "title" = Ok raw \/
   exists t, getitem snippet "title" = Ok (VStr t) /\
             getitem snippet "channelTitle" = Ok raw) ->
  is_text raw = false ->
  youtube search w =
    (Raise TypeError,
     {| clock := S (S (clock w) + length pre);
        trace := trace w
                 ++ EvGet SEARCH_API (search_params search)
                 :: fetches built ++ [EvGet STATS_API (stats_params videoId)] |}).
Proof.
  intros Hs Hall Hf Hid Hvid Hfetch Hsn Hraw Htext.
  rewrite youtube_eq, (search_youtube_returns _ _ _ Hs).
  rewrite (search_loop_prefix _ _ Hall (item :: post) []
             (requested SEARCH_API (search_params search) w) Hf).
  match goal with
  | |- context [search_loop _ _ ?w'] =>
      rewrite (search_loop_not_text _ _ _ _ _ _ _ _ w' Hid Hvid Hfetch Hsn Hraw Htext)
  end.
  unfold requested. simpl. now rewrite <- !app_assoc.
Qed.

(** X9.  Where a [VideoStatistics] comes from: [get_statistics] returns
    one only on an answer of status 200 whose body has ["items"], a first
    entry there, and its ["statistics"] with both counts; the record holds
    exactly the two values found there, unchanged. *)
Theorem get_statistics_some_inv (id : value) (w : world) (vs : VideoStatistics) :
  fst (get_statistics id w) = Ok (Some vs) ->
  exists r body items first statistics,
    http (clock w) STATS_API (stats_params id) = Ok r /\
    status r = 200%Z /\
    json r = Ok body /\
    getitem body "items" = Ok items /\
    getitem0 items = Ok first /\
    getitem first "statistics" = Ok statistics /\
    getitem statistics "viewCount" = Ok (view_count vs) /\
    getitem statistics "likeCount" = Ok (like_count vs).
Proof.
  unfold get_statistics, bind at 1, session_get.
  destruct (http (clock w) STATS_API (stats_params id)) as [r|e] eqn:Hr; [|discriminate].
  destruct (status r =? 200)%Z eqn:Hs; [|discriminate]. simpl.
  unfold bind, lift, ret.
  destruct (json r) as [body|e] eqn:Hb; [|discriminate].
  destruct (getitem body "items") as [items|e] eqn:Hi; [|discriminate].
  destruct (getitem0 items) as [first|e] eqn:Hf; [|discriminate].
  destruct (getitem first "statistics") as [st|e] eqn:Hst; [|discriminate].
  destruct (getitem st "viewCount") as [vc|e] eqn:Hvc; [|discriminate].
  destruct (getitem st "likeCount") as [lc|e] eqn:Hlc; [|discriminate].
  intros [= <-]. exists r, body, items, first, st. apply Z.eqb_eq in Hs.
  now repeat split.
Qed.

End YouTubeSearch.

(** ** The library functions on plain texts

    Instances of the three library functions the cog calls, for running
    the embedding on concrete searches.  Each covers the part of its
    function that plain ASCII titles and queries exercise. *)

Module Lib.

(** [urllib.parse.quote_plus] with its default arguments, on the bytes of
    the text: letters, digits and [_.-~] stay, a space becomes [+], any
    other byte becomes [%XX] in upper-case hexadecimal. *)
Definition unreserved (c : ascii) : bool :=
  let n := nat_of_ascii c in
  ((65 <=? n)%nat && (n <=? 90)%nat) || ((97 <=? n)%nat && (n <=? 122)%nat)
  || ((48 <=? n)%nat && (n <=? 57)%nat)
  || Ascii.eqb c "_" || Ascii.eqb c "." || Ascii.eqb c "-" || Ascii.eqb c "~".

Definition hex_digit (n : nat) : ascii :=
  nth n (list_ascii_of_string "0123456789ABCDEF") "0"%char.

Definition quote_byte (c : ascii) : string :=
  if unreserved c then String c EmptyString
  else if Ascii.eqb c " " then "+"
  else String "%" (String (hex_digit (nat_of_ascii c / 16))
                          (String (hex_digit (nat_of_ascii c mod 16)) EmptyString)).

Fixpoint quote_plus (s : string) : string :=
  match s with
  | EmptyString => EmptyString
  | String c s' => (quote_byte c ++ quote_plus s')%string
  end.

(** The five character references of XML, the part of [html.unescape]
    for texts in which every [&] starts one of them.  [skip] counts the
    characters of a reference still to drop. *)
Fixpoint unescape_from (skip : nat) (s : string) : string :=
  match s with
  | EmptyString => EmptyString
  | String c s' =>
      match skip with
      | S k => unescape_from k s'
      | O =>
          if String.prefix "&amp;" s then String "&" (unescape_from 4 s')
          else if String.prefix "&lt;" s then String "<" (unescape_from 3 s')
          else if String.prefix "&gt;" s then String ">" (unescape_from 3 s')
          else if String.prefix "&quot;" s then String "034"%char (unescape_from 5 s')
          else if String.prefix "&#39;" s then String "'" (unescape_from 4 s')
          else String c (unescape_from 0 s')
      end
  end.

Definition unescape (s : string) : string := unescape_from 0 s.

(** [discord.utils.escape_markdown] with its default arguments, for
    one-line texts without links or quote markers: a backslash before
    each of the characters [_ \ ~ | * `]. *)
Definition markdown_char (c : ascii) : bool :=
  Ascii.eqb c "_" || Ascii.eqb c "\" || Ascii.eqb c "~" || Ascii.eqb c "|"
  || Ascii.eqb c "*" || Ascii.eqb c "`".

Fixpoint escape_markdown (s : string) : string :=
  match s with
  | EmptyString => EmptyString
  | String c s' =>
      if markdown_char c then String "\" (String c (escape_markdown s'))
      else String c (escape_markdown s')
  end.

(** [str] of a list or dict is not needed for the counts and ids of the
    API, which are texts. *)
Definition container_str (_ : value) : string := "<container>".

Lemma quote_plus_app (a b : string) :
  quote_plus (a ++ b) = (quote_plus a ++ quote_plus b)%string.
Proof.
  induction a as [|c a IH]; simpl; [reflexivity|].
  now rewrite IH, Text.append_assoc.
Qed.

(** Spaces become [+]. *)
Lemma quote_plus_space (a b : string) :
  quote_plus (a ++ " " ++ b) = (quote_plus a ++ "+" ++ quote_plus b)%string.
Proof. now rewrite !quote_plus_app. Qed.

End Lib.

(** ** Concrete runs *)

Module Demo.

Definition KEY : value := VStr "api-key".
Definition post_detail : string := ":post_detail:".
Definition user : string := ":user:".
Definition view : string := ":view:".
Definition like : string := ":like:".
Definition youtube_emoji : string := ":youtube:".
Definition dark_green : Z := 0x1f8b4c.
Definition soft_red : Z := 0xcd6d6d.

Definition provider_type : Type :=
  nat -> string -> list (string * value) -> outcome response.

(** Bodies in the shape of the two endpoints. *)
Definition search_item (videoId raw_title channelTitle : string) : value :=
  VDict [("kind", VStr "youtube#searchResult");
         ("id", VDict [("kind", VStr "youtube#video"); ("videoId", VStr videoId)]);
         ("snippet", VDict [("title", VStr raw_title);
                            ("channelTitle", VStr channelTitle)])].

Definition search_body (items : list value) : value :=
  VDict [("kind", VStr "youtube#searchListResponse"); ("items", VList items)].

Definition stats_body (viewCount likeCount : string) : value :=
  VDict [("items",
          VList [VDict [("statistics",
                         VDict [("viewCount", VStr viewCount);
                                ("likeCount", VStr likeCount)])]])].

Definition answer (code : Z) (body : value) : outcome response :=
  Ok {| status := code; json := Ok body |}.

Definition item1 : value := search_item "abc123" "Lo-Fi &amp; Chill" "BeatsCo".
Definition item2 : value := search_item "xyz789" "*Study* beats" "Chill_Hop".
Definition two_items : list value := [item1; item2].

Definition details (params : list (string * value)) : outcome response :=
  match assoc "id" params with
  | Some (VStr "abc123") => answer 200 (stats_body "100" "10")
  | Some (VStr "xyz789") => answer 200 (stats_body "2500" "30")
  | _ => answer 404 (VDict [])
  end.

(** A provider that answers every request. *)
Definition provider : provider_type :=
  fun _ endpoint params =>
    if String.eqb endpoint SEARCH_API then answer 200 (search_body two_items)
    else details params.

(** The search quota is used up. *)
Definition provider_quota : provider_type :=
  fun _ endpoint params =>
    if String.eqb endpoint SEARCH_API then answer 403 (VDict [])
    else details params.

(** The details endpoint fails from the third request on. *)
Definition provider_flaky : provider_type :=
  fun n endpoint params =>
    if String.eqb endpoint SEARCH_API then answer 200 (search_body two_items)
    else if (n <? 2)%nat then details params
    else answer 500 (VDict []).

(** The search body has no ["items"]. *)
Definition provider_no_items : provider_type :=
  fun _ endpoint params =>
    if String.eqb endpoint SEARCH_API
    then answer 200 (VDict [("kind", VStr "youtube#searchListResponse")])
    else details params.

(** The details body has an empty ["items"] (the video was removed). *)
Definition provider_removed : provider_type :=
  fun _ endpoint params =>
    if String.eqb endpoint SEARCH_API then answer 200 (search_body two_items)
    else answer 200 (VDict [("items", VList [])]).

Definition start : world := {| clock := 0; trace := [] |}.

(** The cog on these constants and library instances. *)
Definition statistics_of (http : provider_type) : value -> M (option VideoStatistics) :=
  get_statistics KEY http.

Definition search_on (http : provider_type) : string -> M (option (list Video)) :=
  search_youtube KEY Lib.unescape Lib.escape_markdown http.

Definition command_on (http : provider_type) : string -> M unit :=
  youtube KEY post_detail user view like youtube_emoji dark_green soft_red
          Lib.unescape Lib.escape_markdown Lib.quote_plus Lib.container_str http.

Definition line : Z -> Video -> string :=
  format_search_result post_detail user view like Lib.container_str.

Definition video1 : Video :=
  {| title := "Lo-Fi & Chill"; username := "BeatsCo"; id := VStr "abc123";
     video_statistics := {| view_count := VStr "100"; like_count := VStr "10" |} |}.

Definition video2 : Video :=
  {| title := "\*Study\* beats"; username := "Chill\_Hop"; id := VStr "xyz789";
     video_statistics := {| view_count := VStr "2500"; like_count := VStr "30" |} |}.

(** *** The claims on these runs *)

Lemma two_items_returned (q : string) : search_returns KEY provider 0 q two_items.
Proof.
  exists {| status := 200; json := Ok (search_body two_items) |},
         (search_body two_items), (VList two_items).
  repeat split; reflexivity.
Defined.

Lemma item1_video1 : item_video Lib.unescape Lib.escape_markdown item1 video1.
Proof.
  exists (VDict [("kind", VStr "youtube#video"); ("videoId", VStr "abc123")]),
         (VDict [("title", VStr "Lo-Fi &amp; Chill"); ("channelTitle", VStr "BeatsCo")]),
         "Lo-Fi &amp; Chill", "BeatsCo".
  repeat split; reflexivity.
Defined.

Lemma item2_video2 : item_video Lib.unescape Lib.escape_markdown item2 video2.
Proof.
  exists (VDict [("kind", VStr "youtube#video"); ("videoId", VStr "xyz789")]),
         (VDict [("title", VStr "*Study* beats"); ("channelTitle", VStr "Chill_Hop")]),
         "*Study* beats", "Chill_Hop".
  repeat split; reflexivity.
Defined.

Lemma two_items_videos :
  Forall2 (item_video Lib.unescape Lib.escape_markdown) two_items [video1; video2].
Proof. repeat constructor; [exact item1_video1 | exact item2_video2]. Defined.

Lemma two_videos_fetched : fetched_from KEY provider 1 [video1; video2].
Proof.
  intros [|[|[|k]]] v H; simpl in H; try discriminate; injection H as <-; reflexivity.
Defined.

(** C1 on the search for "lofi hip hop": two items, two videos in the
    order of the items, one success reply with the lines of rank 1 and 2. *)
Lemma search_results_keep_api_order_witness :
  search_returns KEY provider (clock start) "lofi hip hop" two_items /\
  Forall2 (item_video Lib.unescape Lib.escape_markdown) two_items [video1; video2] /\
  fetched_from KEY provider (S (clock start)) [video1; video2] /\
  fst (search_on provider "lofi hip hop" start) = Ok (Some [video1; video2]) /\
  replies (trace (snd (command_on provider "lofi hip hop" start))) =
    [{| embed_colour := dark_green;
        embed_title := ":youtube: YouTube results for `lofi hip hop`";
        embed_url := Some "https://www.youtube.com/results?search_query=lofi+hip+hop";
        embed_description :=
          ("**1. [Lo-Fi & Chill](https://www.youtube.com/watch?v=abc123)**" ++ Text.nl
           ++ ":post_detail: :user: BeatsCo :view: 100 :like: 10" ++ Text.nl
           ++ Text.nl
           ++ "**2. [\*Study\* beats](https://www.youtube.com/watch?v=xyz789)**" ++ Text.nl
           ++ ":post_detail: :user: Chill\_Hop :view: 2500 :like: 30" ++ Text.nl)%string |}].
Proof.
  pose proof (two_items_returned "lofi hip hop") as H1.
  pose proof two_items_videos as H2.
  pose proof two_videos_fetched as H3.
  split; [exact H1|]. split; [exact H2|]. split; [exact H3|].
  destruct (search_results_keep_api_order
              KEY post_detail user view like youtube_emoji dark_green soft_red
              Lib.unescape Lib.escape_markdown Lib.quote_plus Lib.container_str
              provider "lofi hip hop" start two_items [video1; video2] H1 H2 H3)
    as (Hres & _ & lines & reply & Hlen & Hnth & Hrep & Hsucc & _).
  split; [exact Hres|].
  destruct lines as [|l1 [|l2 [|l3 lines]]]; try discriminate Hlen.
  pose proof (Hnth 0%nat video1 eq_refl) as E1.
  pose proof (Hnth 1%nat video2 eq_refl) as E2.
  simpl in E1, E2. injection E1 as ->. injection E2 as ->.
  unfold command_on. rewrite Hrep, Hsucc by discriminate. reflexivity.
Defined.

(** C2 on the provider whose details endpoint fails at the third
    request: the first video was built, the second fetch is absent, and
    the search returns absence. *)
Lemma statistics_absence_aborts_search_witness :
  fetch KEY provider_flaky 2 (VStr "xyz789") = Ok None /\
  fst (search_on provider_flaky "lofi" start) = Ok None /\
  exists items,
    search_returns KEY provider (clock start) "lofi" items /\
    length [video1; video2] = length items.
Proof.
  split; [reflexivity|].
  pose proof (statistics_absence_aborts_search
                KEY Lib.unescape Lib.escape_markdown) as T.
  split.
  - refine (proj1 (T provider_flaky "lofi" start)
                  [item1] item2 [] [video1]
                  (VDict [("kind", VStr "youtube#video"); ("videoId", VStr "xyz789")])
                  (VStr "xyz789") _ _ _ eq_refl eq_refl eq_refl).
    + exists {| status := 200; json := Ok (search_body two_items) |},
             (search_body two_items), (VList two_items).
      repeat split; reflexivity.
    + repeat constructor. exact item1_video1.
    + intros [|[|k]] v H; simpl in H; try discriminate; injection H as <-; reflexivity.
  - destruct (proj2 (T provider "lofi" start) [video1; video2] eq_refl)
      as (items & Hs & Hlen & _).
    exists items. now split.
Defined.

(** C3 on the provider whose search quota is used up. *)
Lemma search_not_200_no_statistics_request_witness :
  provider_quota (clock start) SEARCH_API (search_params KEY "lofi")
    = Ok {| status := 403; json := Ok (VDict []) |} /\
  (403 =? 200)%Z = false /\
  fst (search_on provider_quota "lofi" start) = Ok None /\
  requests_to STATS_API (trace (snd (search_on provider_quota "lofi" start))) = [].
Proof.
  split; [reflexivity|]. split; [reflexivity|].
  destruct (search_not_200_no_statistics_request
              KEY Lib.unescape Lib.escape_markdown provider_quota "lofi" start
              {| status := 403; json := Ok (VDict []) |} eq_refl)
    as (Hres & msg & Htrace & Hnone & _).
  - discriminate.
  - split; [exact Hres|]. unfold search_on. rewrite Htrace. exact Hnone.
Defined.

(** C5 on the two videos: "&amp;" is decoded, "*" and "_" are escaped,
    and the line of the second video shows both escaped texts. *)
Lemma titles_unescaped_then_escaped_witness :
  fst (search_on provider "lofi" start) = Ok (Some [video1; video2]) /\
  Lib.escape_markdown (Lib.unescape "Lo-Fi &amp; Chill") = "Lo-Fi & Chill" /\
  Lib.escape_markdown (Lib.unescape "*Study* beats") = "\*Study\* beats" /\
  Lib.escape_markdown (Lib.unescape "Chill_Hop") = "Chill\_Hop" /\
  line 2 video2 =
    ("**2. [\*Study\* beats](https://www.youtube.com/watch?v=xyz789)**" ++ Text.nl
     ++ ":post_detail: :user: Chill\_Hop :view: 2500 :like: 30" ++ Text.nl)%string /\
  exists items,
    search_returns KEY provider (clock start) "lofi" items /\
    length items = 2%nat.
Proof.
  split; [reflexivity|]. do 4 (split; [reflexivity|]).
  destruct (titles_unescaped_then_escaped
              KEY post_detail user view like Lib.unescape Lib.escape_markdown
              Lib.container_str provider "lofi" start [video1; video2] eq_refl)
    as (items & Hs & Hall).
  exists items. split; [exact Hs|]. exact (Forall2_length Hall).
Defined.

(** C6 on the first video and the ranks 1 and 2. *)
Lemma format_search_result_injective_on_rank_witness :
  (1 =? 2)%Z = false /\
  (line 1 video1 <> line 2 video1 /\
   exists after,
     forall index, line index video1 = ("**" ++ Text.of_Z index ++ after)%string).
Proof.
  split; [reflexivity|].
  apply (format_search_result_injective_on_rank
           post_detail user view like Lib.container_str video1 1 2).
  discriminate.
Defined.

(** C7 on an unknown and on a known video identifier. *)
Lemma get_statistics_absence_iff_not_200_witness :
  statistics_of provider (VStr "unknown") start =
    (Ok None,
     {| clock := 1;
        trace := [EvGet STATS_API (stats_params KEY (VStr "unknown"));
                  EvLog ERROR "YouTube statistics response not successful: response code 404"] |})
  /\ fst (statistics_of provider (VStr "abc123") start) =
       Ok (Some {| view_count := VStr "100"; like_count := VStr "10" |}).
Proof.
  pose proof (get_statistics_absence_iff_not_200 KEY provider) as T.
  split.
  - refine (proj1 (T (VStr "unknown") start)
                  {| status := 404; json := Ok (VDict []) |} eq_refl _).
    discriminate.
  - refine (f_equal fst
              (proj2 (proj2 (T (VStr "abc123") start))
                 {| status := 200; json := Ok (stats_body "100" "10") |}
                 (stats_body "100" "10") _ [] _ (VStr "100") (VStr "10")
                 eq_refl eq_refl eq_refl eq_refl eq_refl eq_refl eq_refl)).
Defined.

(** The details body of the second video has an empty ["items"]. *)
Definition provider_second_removed : provider_type :=
  fun _ endpoint params =>
    if String.eqb endpoint SEARCH_API then answer 200 (search_body two_items)
    else match assoc "id" params with
         | Some (VStr "xyz789") => answer 200 (VDict [("items", VList [])])
         | _ => details params
         end.

(** The second item of the search has no ["snippet"]. *)
Definition item_bare : value :=
  VDict [("id", VDict [("kind", VStr "youtube#video"); ("videoId", VStr "xyz789")])].

Definition provider_bare : provider_type :=
  fun _ endpoint params =>
    if String.eqb endpoint SEARCH_API then answer 200 (search_body [item1; item_bare])
    else details params.

Lemma first_video_built : Forall2 (item_video Lib.unescape Lib.escape_markdown) [item1] [video1].
Proof. repeat constructor. exact item1_video1. Defined.

(** C9 on a search body without ["items"], on a details body whose
    ["items"] is empty, for the first and for the second item, and on a
    second item without ["snippet"]. *)
Lemma malformed_body_raises_witness :
  search_on provider_no_items "lofi" start =
    (Raise (KeyError (VStr "items")),
     requested SEARCH_API (search_params KEY "lofi") start)
  /\ fst (statistics_of provider_removed (VStr "abc123") start) = Raise IndexError
  /\ (fst (command_on provider_removed "lofi" start) = Raise IndexError /\
      replies (trace (snd (command_on provider_removed "lofi" start))) = [])
  /\ (fst (search_on provider_second_removed "lofi" start) = Raise IndexError /\
      fst (command_on provider_second_removed "lofi" start) = Raise IndexError /\
      replies (trace (snd (command_on provider_second_removed "lofi" start))) = [])
  /\ (fst (search_on provider_bare "lofi" start) = Raise (KeyError (VStr "snippet")) /\
      fst (command_on provider_bare "lofi" start) = Raise (KeyError (VStr "snippet")) /\
      replies (trace (snd (command_on provider_bare "lofi" start))) = []).
Proof.
  pose proof (malformed_body_raises
                KEY post_detail user view like youtube_emoji dark_green soft_red
                Lib.unescape Lib.escape_markdown Lib.quote_plus Lib.container_str)
    as T.
  split; [|split; [|split; [|split]]].
  - exact (proj1 (proj2 (T provider_no_items start)) "lofi"
                 {| status := 200;
                    json := Ok (VDict [("kind", VStr "youtube#searchListResponse")]) |}
                 [("kind", VStr "youtube#searchListResponse")]
                 eq_refl eq_refl eq_refl eq_refl).
  - exact (f_equal fst
             (proj1 (proj2 (proj1 (T provider_removed start) (VStr "abc123")
                              {| status := 200; json := Ok (VDict [("items", VList [])]) |}
                              [("items", VList [])] eq_refl eq_refl eq_refl))
                    eq_refl)).
  - refine (proj2 (proj2 (proj2 (proj2 (T provider_removed start))) "lofi"
                     [] item1 [item2] []
                     (VDict [("kind", VStr "youtube#video"); ("videoId", VStr "abc123")])
                     (VStr "abc123")
                     {| status := 200; json := Ok (VDict [("items", VList [])]) |}
                     [("items", VList [])] IndexError
                     _ (Forall2_nil _) _ eq_refl eq_refl eq_refl eq_refl eq_refl _)).
    + exists {| status := 200; json := Ok (search_body two_items) |},
             (search_body two_items), (VList two_items).
      repeat split; reflexivity.
    + intros [|k] v H; discriminate H.
    + right. left. split; reflexivity.
  - refine (proj2 (proj2 (proj2 (T provider_second_removed start))) "lofi"
                  [item1] item2 [] [video1]
                  (VDict [("kind", VStr "youtube#video"); ("videoId", VStr "xyz789")])
                  (VStr "xyz789")
                  {| status := 200; json := Ok (VDict [("items", VList [])]) |}
                  [("items", VList [])] IndexError
                  _ first_video_built _ eq_refl eq_refl eq_refl eq_refl eq_refl _).
    + exists {| status := 200; json := Ok (search_body two_items) |},
             (search_body two_items), (VList two_items).
      repeat split; reflexivity.
    + intros [|[|k]] v H; simpl in H; try discriminate; injection H as <-; reflexivity.
    + right. left. split; reflexivity.
  - refine (proj1 (proj2 (proj2 (T provider_bare start))) "lofi"
                  [item1] item_bare [] [video1] (KeyError (VStr "snippet"))
                  _ first_video_built _ _).
    + exists {| status := 200; json := Ok (search_body [item1; item_bare]) |},
             (search_body [item1; item_bare]), (VList [item1; item_bare]).
      repeat split; reflexivity.
    + intros [|[|k]] v H; simpl in H; try discriminate; injection H as <-; reflexivity.
    + right.
      exists (VDict [("kind", VStr "youtube#video"); ("videoId", VStr "xyz789")]).
      split; [reflexivity|]. right. exists (VStr "xyz789"). split; [reflexivity|].
      right. exists {| view_count := VStr "2500"; like_count := VStr "30" |}.
      split; [reflexivity|]. left. reflexivity.
Defined.

(** C10 on the search for "lofi hip hop": the link encodes the two
    spaces as [+], the title shows the text as typed. *)
Lemma success_reply_link_and_title_witness :
  fst (search_on provider "lofi hip hop" start) = Ok (Some [video1; video2]) /\
  exists description,
    replies (trace (snd (command_on provider "lofi hip hop" start))) =
      [{| embed_colour := dark_green;
          embed_title := ":youtube: YouTube results for `lofi hip hop`";
          embed_url := Some "https://www.youtube.com/results?search_query=lofi+hip+hop";
          embed_description := description |}].
Proof.
  split; [reflexivity|].
  exact (success_reply_link_and_title
           KEY post_detail user view like youtube_emoji dark_green soft_red
           Lib.unescape Lib.escape_markdown Lib.quote_plus Lib.container_str
           provider "lofi hip hop" start video1 [video2] eq_refl).
Defined.

(** C8 as first stated fails: when the search body has no ["items"] the
    handler raises [KeyError] and the channel gets no reply. *)
Lemma one_reply_counterexample :
  fst (command_on provider_no_items "lofi" start) = Raise (KeyError (VStr "items")) /\
  replies (trace (snd (command_on provider_no_items "lofi" start))) = [].
Proof. split; reflexivity. Qed.

(** C4.  On a details body of the API's shape, whose counts are texts,
    [get_statistics] stores the texts: the fields annotated [int] hold no
    integers. *)
Theorem get_statistics_keeps_text_counts :
  exists statistics,
    fst (statistics_of provider (VStr "abc123") start) = Ok (Some statistics) /\
    view_count statistics = VStr "100" /\
    like_count statistics = VStr "10" /\
    is_int (view_count statistics) = false /\
    is_int (like_count statistics) = false.
Proof.
  exists {| view_count := VStr "100"; like_count := VStr "10" |}.
  repeat split; reflexivity.
Qed.

End Demo.

(** ** The API key and what the channel and the log show *)

Section KeyIndependence.

Variables KEY1 KEY2 : value.
Variables Emojis_post_detail Emojis_user Emojis_view Emojis_like Emojis_youtube : string.
Variables Colours_dark_green Colours_soft_red : Z.
Variables unescape escape_markdown quote_plus : string -> string.
Variable container_str : value -> string.
Variables http1 http2 : nat -> string -> list (string * value) -> outcome response.

(** The provider answers a request the same under either key. *)
Hypothesis same_search : forall n search,
    http1 n SEARCH_API (search_params KEY1 search)
    = http2 n SEARCH_API (search_params KEY2 search).
Hypothesis same_details : forall n id,
    http1 n STATS_API (stats_params KEY1 id)
    = http2 n STATS_API (stats_params KEY2 id).

(** What is not a request: the log records and the replies. *)
Definition visible (t : list event) : list event :=
  flat_map (fun e => match e with EvGet _ _ => [] | _ => [e] end) t.

Definition same_view (w1 w2 : world) : Prop :=
  clock w1 = clock w2 /\ visible (trace w1) = visible (trace w2).

Lemma visible_app (t u : list event) : visible (t ++ u) = visible t ++ visible u.
Proof. unfold visible. now rewrite flat_map_app. Qed.

Lemma same_view_emit (e : event) (w1 w2 : world) :
  same_view w1 w2 ->
  same_view {| clock := clock w1; trace := trace w1 ++ [e] |}
            {| clock := clock w2; trace := trace w2 ++ [e] |}.
Proof.
  intros (Hclock & Hview). split; simpl; [exact Hclock|].
  now rewrite !visible_app, Hview.
Qed.

Lemma fetch_same (n : nat) (id : value) :
  fetch KEY1 http1 n id = fetch KEY2 http2 n id /\
  fetch_log KEY1 http1 n id = fetch_log KEY2 http2 n id.
Proof.
  unfold fetch, fetch_log, get_statistics, bind, session_get, log_error, emit, lift, ret.
  simpl. rewrite same_details.
  destruct (http2 n STATS_API (stats_params KEY2 id)) as [r|e]; [|now split].
  destruct (negb (status r =? 200)%Z); [now split|]. split; [|reflexivity].
  destruct (json r) as [body|e]; [|reflexivity].
  destruct (getitem body "items") as [items|e]; [|reflexivity].
  destruct (getitem0 items) as [first|e]; [|reflexivity].
  destruct (getitem first "statistics") as [st|e]; [|reflexivity].
  destruct (getitem st "viewCount") as [vc|e]; [|reflexivity].
  destruct (getitem st "likeCount") as [lc|e]; reflexivity.
Qed.

Lemma same_view_fetched (id : value) (w1 w2 : world) :
  same_view w1 w2 ->
  same_view (fetched KEY1 http1 id w1) (fetched KEY2 http2 id w2).
Proof.
  intros (Hclock & Hview). split; simpl; [now rewrite Hclock|].
  rewrite !visible_app, Hview, Hclock. simpl.
  now rewrite (proj2 (fetch_same (clock w2) id)).
Qed.

Lemma search_loop_same (items : list value) :
  forall (results : list Video) (w1 w2 : world),
    same_view w1 w2 ->
    fst (search_loop KEY1 unescape escape_markdown http1 items results w1)
    = fst (search_loop KEY2 unescape escape_markdown http2 items results w2) /\
    same_view (snd (search_loop KEY1 unescape escape_markdown http1 items results w1))
              (snd (search_loop KEY2 unescape escape_markdown http2 items results w2)).
Proof.
  induction items as [|item items IH]; intros results w1 w2 Hview; [now split|].
  pose proof (fun id => same_view_fetched id w1 w2 Hview) as Hfetched.
  simpl search_loop. unfold bind, lift, clean, ret.
  destruct (getitem item "id") as [item_id|e]; [|now split].
  destruct (getitem item_id "videoId") as [videoId|e] eqn:Hvid; [|now split].
  rewrite !get_statistics_eq.
  rewrite (proj1 (fetch_same (clock w1) videoId)), (proj1 Hview).
  specialize (Hfetched videoId).
  destruct (fetch KEY2 http2 (clock w2) videoId) as [[vs|]|e]; [| | now split].
  2:{ split; [reflexivity|]. now apply same_view_emit. }
  destruct (getitem item "snippet") as [snippet|e]; [|now split].
  destruct (getitem snippet "title") as [raw_title|e]; [|now split].
  destruct raw_title as [| | | |t| |]; try now split.
  destruct (getitem snippet "channelTitle") as [channelTitle|e]; [|now split].
  destruct channelTitle as [| | | |c| |]; try now split.
  now apply IH.
Qed.

(** X8.  The API key reaches the provider only.  When the provider
    answers the same under two keys, the command ends the same way under
    both, and the replies and log records it leaves are the same. *)
Theorem api_key_not_visible (search : string) (w : world) :
  fst (youtube KEY1 Emojis_post_detail Emojis_user Emojis_view Emojis_like
               Emojis_youtube Colours_dark_green Colours_soft_red
               unescape escape_markdown quote_plus container_str http1 search w)
  = fst (youtube KEY2 Emojis_post_detail Emojis_user Emojis_view Emojis_like
                 Emojis_youtube Colours_dark_green Colours_soft_red
                 unescape escape_markdown quote_plus container_str http2 search w)
  /\ visible (trace (snd (youtube KEY1 Emojis_post_detail Emojis_user Emojis_view
                                  Emojis_like Emojis_youtube Colours_dark_green
                                  Colours_soft_red unescape escape_markdown
                                  quote_plus container_str http1 search w)))
     = visible (trace (snd (youtube KEY2 Emojis_post_detail Emojis_user Emojis_view
                                    Emojis_like Emojis_youtube Colours_dark_green
                                    Colours_soft_red unescape escape_markdown
                                    quote_plus container_str http2 search w))).
Proof.
  assert (Hsearch :
            fst (search_youtube KEY1 unescape escape_markdown http1 search w)
            = fst (search_youtube KEY2 unescape escape_markdown http2 search w) /\
            same_view (snd (search_youtube KEY1 unescape escape_markdown http1 search w))
                      (snd (search_youtube KEY2 unescape escape_markdown http2 search w))).
  { assert (Hreq : same_view (requested SEARCH_API (search_params KEY1 search) w)
                              (requested SEARCH_API (search_params KEY2 search) w)).
    { split; simpl; [reflexivity | now rewrite !visible_app]. }
    pose proof (same_search (clock w) search) as Hsame.
    destruct (http2 (clock w) SEARCH_API (search_params KEY2 search)) as [r|e] eqn:Hr.
    2:{ rewrite (search_youtube_client_fault _ _ _ _ _ _ _ Hsame),
          (search_youtube_client_fault _ _ _ _ _ _ _ Hr). now split. }
    destruct (Z.eq_dec (status r) 200) as [Hs|Hs].
    2:{ rewrite (search_youtube_not_200 _ _ _ _ _ _ _ Hsame Hs),
          (search_youtube_not_200 _ _ _ _ _ _ _ Hr Hs).
        split; [reflexivity|]. now apply same_view_emit. }
    rewrite (search_youtube_200 _ _ _ _ _ _ _ Hsame Hs),
      (search_youtube_200 _ _ _ _ _ _ _ Hr Hs).
    unfold bind, lift.
    destruct (json r) as [body|e]; [|now split].
    destruct (getitem body "items") as [iv|e]; [|now split].
    destruct (iter iv) as [items|e]; [|now split].
    now apply search_loop_same. }
  rewrite !youtube_eq. destruct Hsearch as (Hres & Hview).
  destruct (search_youtube KEY1 unescape escape_markdown http1 search w) as [r1 v1].
  destruct (search_youtube KEY2 unescape escape_markdown http2 search w) as [r2 v2].
  simpl in Hres, Hview. subst r2. destruct r1 as [results|e].
  - split; [reflexivity|].
    exact (proj2 (same_view_emit (EvSend _) _ _ Hview)).
  - split; [reflexivity | exact (proj2 Hview)].
Qed.

End KeyIndependence.

(** ** More concrete runs *)

Module Runs.
Import Demo.

(** A search whose second item has a number for a title. *)
Definition item_numbered : value :=
  VDict [("id", VDict [("kind", VStr "youtube#video"); ("videoId", VStr "xyz789")]);
         ("snippet", VDict [("title", VInt 42); ("channelTitle", VStr "Chill_Hop")])].

Definition provider_numbered : provider_type :=
  fun _ endpoint params =>
    if String.eqb endpoint SEARCH_API
    then answer 200 (search_body [item1; item_numbered])
    else details params.

(** A search body whose ["items"] is a text. *)
Definition provider_text_items : provider_type :=
  fun _ endpoint params =>
    if String.eqb endpoint SEARCH_API
    then answer 200 (VDict [("items", VStr "none")])
    else details params.

Lemma two_items_returned_flaky : search_returns KEY provider_flaky 0 "lofi" two_items.
Proof.
  exists {| status := 200; json := Ok (search_body two_items) |},
         (search_body two_items), (VList two_items).
  repeat split; reflexivity.
Defined.

(** X2 on the provider whose details endpoint fails at the third request:
    both items were visited, one request each, in order. *)
Lemma statistics_requests_follow_items_witness :
  search_returns KEY provider_flaky (clock start) "lofi" two_items /\
  exists visited rest ids,
    two_items = visited ++ rest /\
    Forall2 has_video_id visited ids /\
    length ids <= length two_items /\
    requests_to STATS_API (trace (snd (search_on provider_flaky "lofi" start))) =
      requests_to STATS_API (trace start)
      ++ map (fun id => [("part", VStr "statistics"); ("id", id); ("key", KEY)]) ids /\
    (forall found, fst (search_on provider_flaky "lofi" start) = Ok (Some found) ->
                   rest = []).
Proof.
  split; [exact two_items_returned_flaky|].
  exact (statistics_requests_follow_items
           KEY Lib.unescape Lib.escape_markdown provider_flaky "lofi" start two_items
           two_items_returned_flaky).
Defined.

(** X5 on a search body whose ["items"] is the text "none". *)
Lemma items_not_an_array_witness :
  snd (search_on provider_text_items "lofi" start)
    = requested SEARCH_API (search_params KEY "lofi") start /\
  fst (search_on provider_text_items "lofi" start) = Raise TypeError.
Proof.
  refine (items_not_an_array
            KEY Lib.unescape Lib.escape_markdown provider_text_items "lofi" start
            {| status := 200; json := Ok (VDict [("items", VStr "none")]) |}
            (VDict [("items", VStr "none")]) (VStr "none")
            eq_refl eq_refl eq_refl eq_refl _).
  intros l. discriminate.
Defined.

(** X6 on the search for "lofi hip hop": two videos, a reply with a link. *)
Lemma reply_links_iff_videos_found_witness :
  fst (search_on provider "lofi hip hop" start) = Ok (Some [video1; video2]) /\
  exists reply,
    replies (trace (snd (command_on provider "lofi hip hop" start)))
      = replies (trace start) ++ [reply] /\
    embed_url reply
      = Some "https://www.youtube.com/results?search_query=lofi+hip+hop".
Proof.
  split; [reflexivity|].
  destruct (reply_links_iff_videos_found
              KEY post_detail user view like youtube_emoji dark_green soft_red
              Lib.unescape Lib.escape_markdown Lib.quote_plus Lib.container_str
              provider "lofi hip hop" start (Some [video1; video2]) eq_refl)
    as (reply & Hreply & Hlink & _).
  exists reply. split; [exact Hreply|].
  apply Hlink. exists video1, [video2]. reflexivity.
Defined.

(** X7 on the search whose second item has the number 42 for a title:
    the handler raises after the second details request. *)
Lemma title_not_text_raises_witness :
  search_returns KEY provider_numbered (clock start) "lofi" ([item1] ++ item_numbered :: []) /\
  fetch KEY provider_numbered 2 (VStr "xyz789")
    = Ok (Some {| view_count := VStr "2500"; like_count := VStr "30" |}) /\
  is_text (VInt 42) = false /\
  command_on provider_numbered "lofi" start =
    (Raise TypeError,
     {| clock := 3;
        trace := [EvGet SEARCH_API (search_params KEY "lofi");
                  EvGet STATS_API (stats_params KEY (VStr "abc123"));
                  EvGet STATS_API (stats_params KEY (VStr "xyz789"))] |}).
Proof.
  assert (Hs : search_returns KEY provider_numbered (clock start) "lofi"
                              ([item1] ++ item_numbered :: [])).
  { exists {| status := 200; json := Ok (search_body [item1; item_numbered]) |},
           (search_body [item1; item_numbered]), (VList [item1; item_numbered]).
    repeat split; reflexivity. }
  split; [exact Hs|]. split; [reflexivity|]. split; [reflexivity|].
  refine (title_not_text_raises
            KEY post_detail user view like youtube_emoji dark_green soft_red
            Lib.unescape Lib.escape_markdown Lib.quote_plus Lib.container_str
            provider_numbered "lofi" start [item1] [] [video1] item_numbered
            (VDict [("kind", VStr "youtube#video"); ("videoId", VStr "xyz789")])
            (VStr "xyz789")
            (VDict [("title", VInt 42); ("channelTitle", VStr "Chill_Hop")])
            (VInt 42)
            {| view_count := VStr "2500"; like_count := VStr "30" |}
            Hs _ _ eq_refl eq_refl eq_refl eq_refl (or_introl eq_refl) eq_refl).
  - repeat constructor. exact item1_video1.
  - intros [|[|k]] v H; simpl in H; try discriminate; injection H as <-; reflexivity.
Defined.

(** X8 on two keys: the provider does not look at the key, and the
    command shows the same under both. *)
Lemma api_key_not_visible_witness :
  (forall n search,
      provider n SEARCH_API (search_params (VStr "key-a") search)
      = provider n SEARCH_API (search_params (VStr "key-b") search)) /\
  (forall n id,
      provider n STATS_API (stats_params (VStr "key-a") id)
      = provider n STATS_API (stats_params (VStr "key-b") id)) /\
  visible (trace (snd (youtube (VStr "key-a") post_detail user view like youtube_emoji
                               dark_green soft_red Lib.unescape Lib.escape_markdown
                               Lib.quote_plus Lib.container_str provider "lofi" start)))
  = visible (trace (snd (youtube (VStr "key-b") post_detail user view like youtube_emoji
                                 dark_green soft_red Lib.unescape Lib.escape_markdown
                                 Lib.quote_plus Lib.container_str provider "lofi" start))).
Proof.
  assert (H1 : forall n search,
             provider n SEARCH_API (search_params (VStr "key-a") search)
             = provider n SEARCH_API (search_params (VStr "key-b") search))
    by reflexivity.
  assert (H2 : forall n id,
             provider n STATS_API (stats_params (VStr "key-a") id)
             = provider n STATS_API (stats_params (VStr "key-b") id))
    by reflexivity.
  split; [exact H1|]. split; [exact H2|].
  exact (proj2 (api_key_not_visible
                  (VStr "key-a") (VStr "key-b") post_detail user view like youtube_emoji
                  dark_green soft_red Lib.unescape Lib.escape_markdown Lib.quote_plus
                  Lib.container_str provider provider H1 H2 "lofi" start)).
Defined.

(** X9 on the statistics of the first video. *)
Lemma get_statistics_some_inv_witness :
  fst (statistics_of provider (VStr "abc123") start)
    = Ok (Some {| view_count := VStr "100"; like_count := VStr "10" |}) /\
  exists r body items first statistics,
    provider (clock start) STATS_API (stats_params KEY (VStr "abc123")) = Ok r /\
    status r = 200%Z /\
    json r = Ok body /\
    getitem body "items" = Ok items /\
    getitem0 items = Ok first /\
    getitem first "statistics" = Ok statistics /\
    getitem statistics "viewCount" = Ok (VStr "100") /\
    getitem statistics "likeCount" = Ok (VStr "10").
Proof.
  split; [reflexivity|].
  exact (get_statistics_some_inv KEY provider (VStr "abc123") start
           {| view_count := VStr "100"; like_count := VStr "10" |} eq_refl).
Defined.

End Runs.
